(** * The natural-language query and chat assistant of app.py

    A shallow embedding of the assistant core of [src/app.py]:
    [run_query_in_thread] (the AI database query), [retrieve_context],
    [gemini_chat_response] and [process_chat_response] (the chatbot).

    Text is Rocq's [string].  The character functions follow Python on the
    code points 0..127; the code points 128..255 of [ascii] are kept as
    caseless symbols that are neither whitespace nor word characters, so the
    development speaks about ASCII text.  The language model and the SQLite
    store are capabilities of a [world], each of which may answer or raise;
    every call the program makes to them, to Tk and to the browser is
    recorded as an [event].  The calls to Tk and to [webbrowser] are taken
    to return. *)

From Stdlib Require Import List String Ascii Bool Arith NArith ZArith Lia.
From Stdlib Require Import Numbers.DecimalString.
Import ListNotations.

Local Open Scope list_scope.
Local Open Scope string_scope.

(** ** Python's [str] operations *)

Module Py.

Definition code (c : ascii) : N := N_of_ascii c.

Definition between (lo hi : N) (c : ascii) : bool :=
  (lo <=? code c)%N && (code c <=? hi)%N.

Definition is_upper (c : ascii) : bool := between 65 90 c.
Definition is_lower (c : ascii) : bool := between 97 122 c.
Definition is_digit (c : ascii) : bool := between 48 57 c.

(** [str.isspace] on one character, also the class [\s] of [re]:
    tab, line feed, vertical tab, form feed, carriage return, the four
    separators 0x1c..0x1f and the space. *)
Definition is_space (c : ascii) : bool :=
  between 9 13 c || between 28 31 c || (code c =? 32)%N.

(** The class [\w] of [re]: alphanumeric or the underscore. *)
Definition is_word (c : ascii) : bool :=
  is_upper c || is_lower c || is_digit c || (code c =? 95)%N.

(** The class [.] of [re] without DOTALL: anything but a line feed. *)
Definition is_dot (c : ascii) : bool := negb (code c =? 10)%N.

Definition lower_char (c : ascii) : ascii :=
  if is_upper c then ascii_of_N (code c + 32) else c.

Definition upper_char (c : ascii) : ascii :=
  if is_lower c then ascii_of_N (code c - 32) else c.

Fixpoint map_chars (f : ascii -> ascii) (s : string) : string :=
  match s with
  | EmptyString => EmptyString
  | String c s' => String (f c) (map_chars f s')
  end.

(** [s.lower()] and [s.upper()] *)
Definition lower (s : string) : string := map_chars lower_char s.
Definition upper (s : string) : string := map_chars upper_char s.

(** [s.lstrip()], [s.rstrip()], [s.strip()] *)
Fixpoint lstrip (s : string) : string :=
  match s with
  | String c s' => if is_space c then lstrip s' else s
  | EmptyString => EmptyString
  end.

Fixpoint rstrip (s : string) : string :=
  match s with
  | String c s' =>
      match rstrip s' with
      | EmptyString => if is_space c then EmptyString else String c EmptyString
      | r => String c r
      end
  | EmptyString => EmptyString
  end.

Definition strip (s : string) : string := rstrip (lstrip s).

(** [s.startswith(p)] *)
Fixpoint startswith (s p : string) {struct p} : bool :=
  match p, s with
  | EmptyString, _ => true
  | String a p', String b s' => Ascii.eqb a b && startswith s' p'
  | String _ _, EmptyString => false
  end.

(** [s[:n]] *)
Fixpoint take (n : nat) (s : string) : string :=
  match n, s with
  | S n', String c s' => String c (take n' s')
  | _, _ => EmptyString
  end.

(** [s.find(sub)], [None] for Python's -1. *)
Fixpoint find (s sub : string) : option nat :=
  if startswith s sub then Some 0
  else match s with
       | String _ s' => option_map S (find s' sub)
       | EmptyString => None
       end.

(** [s.replace(old, "")] for a non-empty [old]: every occurrence, left to
    right and without overlap, is dropped.  [skip] counts the characters of
    the occurrence under the cursor that remain to be dropped. *)
Fixpoint remove_from (skip : nat) (old s : string) : string :=
  match s with
  | EmptyString => EmptyString
  | String c s' =>
      match skip with
      | S k => remove_from k old s'
      | O => if startswith s old
             then remove_from (String.length old - 1) old s'
             else String c (remove_from 0 old s')
      end
  end.

Definition remove_all (s old : string) : string :=
  match old with
  | EmptyString => s
  | _ => remove_from 0 old s
  end.

(** [sep.join(parts)] *)
Definition join (sep : string) (parts : list string) : string :=
  String.concat sep parts.

(** [c * n] for a one-character string [c] *)
Fixpoint repeat_char (c : ascii) (n : nat) : string :=
  match n with
  | O => EmptyString
  | S n' => String c (repeat_char c n')
  end.

(** [c in s] for a character *)
Fixpoint has_char (c : ascii) (s : string) : bool :=
  match s with
  | EmptyString => false
  | String d s' => Ascii.eqb c d || has_char c s'
  end.

Fixpoint all_chars (p : ascii -> bool) (s : string) : bool :=
  match s with
  | EmptyString => true
  | String c s' => p c && all_chars p s'
  end.

(** [urllib.parse.quote(s)] with its default [safe='/']: letters, digits
    and [_.-~/] stay, every other byte of the UTF-8 encoding becomes [%XX]. *)
Definition hex_digit (n : N) : ascii :=
  if (n <? 10)%N then ascii_of_N (48 + n) else ascii_of_N (55 + n).

Definition percent (b : N) : string :=
  String "%" (String (hex_digit (b / 16)) (String (hex_digit (b mod 16)) EmptyString)).

Definition is_quote_safe (c : ascii) : bool :=
  is_upper c || is_lower c || is_digit c
  || (code c =? 95)%N || (code c =? 46)%N || (code c =? 45)%N
  || (code c =? 126)%N || (code c =? 47)%N.

Definition quote_char (c : ascii) : string :=
  if is_quote_safe c then String c EmptyString
  else if (code c <? 128)%N then percent (code c)
  else percent (192 + code c / 64) ++ percent (128 + code c mod 64).

Fixpoint quote (s : string) : string :=
  match s with
  | EmptyString => EmptyString
  | String c s' => quote_char c ++ quote s'
  end.

(** [str(n)] for an integer *)
Definition str_of_Z (z : Z) : string := NilZero.string_of_int (Z.to_int z).

Definition nl : string := String (ascii_of_N 10) EmptyString.
Definition tab : string := String (ascii_of_N 9) EmptyString.

End Py.

(** ** The two patterns of [re]

    A backtracking matcher in continuation style, as [re] runs it: a piece of
    a pattern reads the rest of the subject and hands what it leaves to the
    pieces after it; when they fail it tries its next alternative, a greedy
    repetition giving characters back and a lazy one taking one more. *)

Module Re.

Section Pieces.
Context {R : Type}.

(** A literal text. *)
Fixpoint lit (p s : string) (k : string -> option R) : option R :=
  match p with
  | EmptyString => k s
  | String a p' =>
      match s with
      | String b s' => if Ascii.eqb a b then lit p' s' k else None
      | EmptyString => None
      end
  end.

(** [x*] for a character class [x]: the longest run first. *)
Fixpoint star_greedy (x : ascii -> bool) (s : string)
         (k : string -> option R) : option R :=
  match s with
  | String c s' =>
      if x c
      then match star_greedy x s' k with
           | Some r => Some r
           | None => k s
           end
      else k s
  | EmptyString => k s
  end.

(** [(x*?)]: the shortest run first; [got] is the text captured so far. *)
Fixpoint star_lazy (x : ascii -> bool) (got s : string)
         (k : string -> string -> option R) : option R :=
  match k got s with
  | Some r => Some r
  | None =>
      match s with
      | String c s' =>
          if x c then star_lazy x (got ++ String c EmptyString) s' k else None
      | EmptyString => None
      end
  end.

(** [x+] greedy, handing on the text it matched. *)
Fixpoint plus_greedy (x : ascii -> bool) (got s : string)
         (k : string -> string -> option R) : option R :=
  match s with
  | String c s' =>
      if x c
      then match plus_greedy x (got ++ String c EmptyString) s' k with
           | Some r => Some r
           | None => k (got ++ String c EmptyString) s'
           end
      else None
  | EmptyString => None
  end.
End Pieces.

(** What the program reads of a match object. *)
Record match_object := { group0 : string; group1 : string }.

Definition marker_literal : string := "[WEB_SEARCH_SUGGESTION:".

(** [\[WEB_SEARCH_SUGGESTION:\s*(.*?)\s*\]] tried at the start of [s]:
    the captured group and the text after the match. *)
Definition marker_here (s : string) : option (string * string) :=
  lit marker_literal s (fun s1 =>
  star_greedy Py.is_space s1 (fun s2 =>
  star_lazy Py.is_dot EmptyString s2 (fun g s3 =>
  star_greedy Py.is_space s3 (fun s4 =>
  lit "]" s4 (fun s5 => Some (g, s5)))))).

(** [re.search(r'\[WEB_SEARCH_SUGGESTION:\s*(.*?)\s*\]', s)]: the match at
    the leftmost position that has one. *)
Fixpoint search_marker (s : string) : option match_object :=
  match marker_here s with
  | Some (g, rest) =>
      Some {| group0 := Py.take (String.length s - String.length rest) s;
              group1 := g |}
  | None =>
      match s with
      | String _ s' => search_marker s'
      | EmptyString => None
      end
  end.

Definition is_word_at (c : option ascii) : bool :=
  match c with
  | Some c => Py.is_word c
  | None => false
  end.

Definition first_char (s : string) : option ascii :=
  match s with
  | String c _ => Some c
  | EmptyString => None
  end.

Fixpoint last_char (s : string) : option ascii :=
  match s with
  | EmptyString => None
  | String c EmptyString => Some c
  | String _ s' => last_char s'
  end.

(** [\b] between the character before the cursor and the one after it. *)
Definition boundary (prev : option ascii) (s : string) : bool :=
  xorb (is_word_at prev) (is_word_at (first_char s)).

(** [\b\w+\b] tried at a cursor that has [prev] before it and [s] after. *)
Definition word_here (prev : option ascii) (s : string)
  : option (string * string) :=
  if boundary prev s
  then plus_greedy Py.is_word EmptyString s (fun w rest =>
         if boundary (last_char w) rest then Some (w, rest) else None)
  else None.

(** [re.findall(r'\b\w+\b', s)]: the scan goes left to right and resumes
    where a match ended: [skip] counts the characters of the last match
    that the cursor still has to pass. *)
Fixpoint findall_from (skip : nat) (prev : option ascii) (s : string)
  : list string :=
  match s with
  | EmptyString => []
  | String c s' =>
      match skip with
      | S k => findall_from k (Some c) s'
      | O =>
          match word_here prev s with
          | Some (w, _) => w :: findall_from (String.length w - 1) (Some c) s'
          | None => findall_from 0 (Some c) s'
          end
      end
  end.

Definition findall_words (s : string) : list string :=
  findall_from 0 None s.

End Re.

(** ** The world outside the program *)

(** An exception, by the two classes the handlers tell apart, with [str(e)]. *)
Inductive exn :=
| SqliteError (msg : string)
| OtherError (msg : string).

Definition str_of_exn (e : exn) : string :=
  match e with
  | SqliteError msg => msg
  | OtherError msg => msg
  end.

Inductive result (A : Type) :=
| Return (a : A)
| Raise (e : exn).
Arguments Return {A} a.
Arguments Raise {A} e.

(** A value SQLite hands back: NULL, an integer or a text. *)
Inductive sqlval :=
| SqlNull
| SqlInt (z : Z)
| SqlText (s : string).

(** [str(v)], also what an f-string prints for [v]. *)
Definition str_of_sqlval (v : sqlval) : string :=
  match v with
  | SqlNull => "None"
  | SqlInt z => Py.str_of_Z z
  | SqlText s => s
  end.

(** Python's truth value of [v]. *)
Definition truthy (v : sqlval) : bool :=
  match v with
  | SqlNull => false
  | SqlInt z => negb (z =? 0)%Z
  | SqlText s => negb (s =? "")
  end.

(** A cursor after [execute]: the column names of [description] and what
    [fetchall] returns. *)
Record table := { description : list string; rows : list (list sqlval) }.

Record world := {
  (** [get_gemini_model()] returns a model *)
  gemini_model : bool;
  (** [model.start_chat(history=[]).send_message(prompt).text] *)
  send_message : string -> result string;
  (** [sqlite3.connect(DB_FILE)] raises *)
  connect : option exn;
  (** [cursor.execute(sql, params)] on a fresh connection *)
  execute : string -> list string -> result table
}.

(** The callbacks [run_query_in_thread] hands to [root.after(0, ...)].  A
    callback is a lambda that Tk runs later; it is recorded with the values
    its body reads. *)
Inductive callback :=
| ShowInvalid
| ShowResults (columns : list string) (rows : list (list sqlval))
| ShowNoResults
| ShowDatabaseError (se : string) (generated_sql : option string)
| ShowError (e : string).

Inductive event :=
| EvPrint (line : string)
| EvSendMessage (prompt : string)
| EvConnect
| EvExecute (sql : string) (params : list string)
| EvClose
| EvAfter (cb : callback)
| EvDisplayMessage (sender message : string) (is_link : bool) (link_url : option string)
| EvOpenNewTab (url : string)
| EvPackForget
| EvSendButtonNormal.

(** ** A monad for the program's effects

    The state holds the events so far and the two local variables that the
    handlers of a [try] read after the body raised: [context_data] of
    [retrieve_context] and [generated_sql] of [run_query_in_thread]. *)

Record state := {
  trace : list event;
  context_data : list string;
  generated_sql : option string
}.

Definition initial : state :=
  {| trace := []; context_data := []; generated_sql := None |}.

Definition M (A : Type) : Type := state -> result A * state.

Definition ret {A} (a : A) : M A := fun st => (Return a, st).

Definition bind {A B} (m : M A) (k : A -> M B) : M B :=
  fun st =>
    match m st with
    | (Return a, st') => k a st'
    | (Raise e, st') => (Raise e, st')
    end.

Definition raise {A} (e : exn) : M A := fun st => (Raise e, st).

(** [try: m  except Exception as e: handler e] *)
Definition try_except {A} (m : M A) (handler : exn -> M A) : M A :=
  fun st =>
    match m st with
    | (Return a, st') => (Return a, st')
    | (Raise e, st') => handler e st'
    end.

(** [try: m  finally: cleanup] *)
Definition try_finally {A} (m : M A) (cleanup : M unit) : M A :=
  fun st =>
    match m st with
    | (r, st') =>
        match cleanup st' with
        | (Return _, st'') => (r, st'')
        | (Raise e, st'') => (Raise e, st'')
        end
    end.

Declare Scope monad_scope.
Delimit Scope monad_scope with M.
Notation "x <- m ;; k" := (bind m (fun x => k))
  (at level 61, m at next level, right associativity) : monad_scope.
Notation "m ;; k" := (bind m (fun _ => k))
  (at level 61, right associativity) : monad_scope.
Local Open Scope monad_scope.

Definition emit (ev : event) : M unit :=
  fun st => (Return tt, {| trace := trace st ++ [ev];
                           context_data := context_data st;
                           generated_sql := generated_sql st |}).

Definition set_context_data (l : list string) : M unit :=
  fun st => (Return tt, {| trace := trace st;
                           context_data := l;
                           generated_sql := generated_sql st |}).

Definition get_context_data : M (list string) :=
  fun st => (Return (context_data st), st).

(** [context_data.append(line)] *)
Definition append_context (line : string) : M unit :=
  fun st => (Return tt, {| trace := trace st;
                           context_data := context_data st ++ [line];
                           generated_sql := generated_sql st |}).

Definition set_generated_sql (sql : option string) : M unit :=
  fun st => (Return tt, {| trace := trace st;
                           context_data := context_data st;
                           generated_sql := sql |}).

Definition get_generated_sql : M (option string) :=
  fun st => (Return (generated_sql st), st).

Definition lift {A} (r : result A) : M A := fun st => (r, st).

Definition when (b : bool) (m : M unit) : M unit := if b then m else ret tt.

Fixpoint for_each {A} (l : list A) (body : A -> M unit) : M unit :=
  match l with
  | [] => ret tt
  | a :: l' => body a ;; for_each l' body
  end.

(** The capabilities, each call recorded before its outcome. *)
Definition call_model (w : world) (prompt : string) : M string :=
  emit (EvSendMessage prompt) ;; lift (send_message w prompt).

Definition sqlite3_connect (w : world) : M unit :=
  emit EvConnect ;;
  match connect w with
  | Some e => raise e
  | None => ret tt
  end.

Definition cursor_execute (w : world) (sql : string) (params : list string)
  : M table :=
  emit (EvExecute sql params) ;; lift (execute w sql params).

(** [row[i]] on a tuple *)
Definition index (row : list sqlval) (i : nat) : M sqlval :=
  match nth_error row i with
  | Some v => ret v
  | None => raise (OtherError "tuple index out of range")
  end.

(** ** The AI database query: [run_query_in_thread] *)

Definition nl : string := Py.nl.

Definition schema_description : string :=
  "Stores information about global energy producers including their name, contact details, address, products they offer, and their energy category (e.g., Solar, Wind, Hydro, Biofuel, Geothermal, Nuclear, Fossil Fuel).".

Definition sql_prompt (user_query : string) : string :=
  "Given the SQLite database schema:" ++ nl ++ nl ++
  "CREATE TABLE producers (" ++ nl ++
  "    id INTEGER PRIMARY KEY AUTOINCREMENT," ++ nl ++
  "    name TEXT NOT NULL UNIQUE," ++ nl ++
  "    contact TEXT," ++ nl ++
  "    address TEXT," ++ nl ++
  "    products TEXT," ++ nl ++
  "    category TEXT" ++ nl ++
  ");" ++ nl ++ nl ++
  "Table description: " ++ schema_description ++ nl ++ nl ++
  "Convert the following natural language query into a valid SQLite SQL SELECT statement. " ++
  "Only provide the SQL query, nothing else. Do not add any backticks or extra formatting. " ++
  "If the query cannot be translated to a SELECT statement, respond with 'INVALID_QUERY'." ++ nl ++ nl ++
  "Natural language query: '" ++ user_query ++ "'" ++ nl ++ nl ++ "SQL:".

(** Lines 787-790: the statement that goes on, or the marker. *)
Definition checked_sql (sql_query_raw : string) : string :=
  if Py.startswith (Py.upper sql_query_raw) "SELECT"
  then sql_query_raw
  else "INVALID_QUERY".

(** The validation state of a candidate query.  The program has no such
    type: a candidate is [Rejected] when line 792 takes the branch that
    reports and returns, and [Valid] when it goes on to the store. *)
Inductive validation := Valid | Rejected.

Definition validate (sql_query_raw : string) : validation :=
  if checked_sql sql_query_raw =? "INVALID_QUERY" then Rejected else Valid.

Definition run_query_in_thread (w : world) (user_query : string) : M unit :=
  try_except
    (let prompt := sql_prompt user_query in
     response_text <- call_model w prompt ;;
     let sql_query_raw := Py.strip response_text in
     emit (EvPrint ("Generated SQL (raw): " ++ sql_query_raw)) ;;
     set_generated_sql (Some (checked_sql sql_query_raw)) ;;
     match validate sql_query_raw with
     | Rejected => emit (EvAfter ShowInvalid)
     | Valid =>
         sqlite3_connect w ;;
         cursor <- cursor_execute w (checked_sql sql_query_raw) [] ;;
         let rows := rows cursor in
         let columns := description cursor in
         emit EvClose ;;
         emit (EvAfter (match rows with
                        | [] => ShowNoResults
                        | _ => ShowResults columns rows
                        end))
     end)
    (fun e =>
       match e with
       | SqliteError se =>
           sql <- get_generated_sql ;;
           emit (EvAfter (ShowDatabaseError se sql))
       | OtherError msg => emit (EvAfter (ShowError msg))
       end).

(** What a callback leaves in the result box when Tk runs it.  The lambdas
    of the two handlers read the handler's exception variable when they run:
    [bound] tells whether that is before the except clause has ended, where
    Python unbinds the name.  After that, as when [generated_sql] was never
    assigned, the f-string raises NameError once the box has been cleared. *)
Definition dashes : string := Py.repeat_char "-" 50.

Definition callback_text (bound : bool) (cb : callback) : string :=
  match cb with
  | ShowInvalid =>
      "AI could not generate a valid SQL SELECT query from your input or it's not a SELECT query." ++ nl
  | ShowResults columns rows =>
      "Query Results:" ++ nl ++ dashes ++ nl ++
      Py.join Py.tab columns ++ nl ++ dashes ++ nl ++
      String.concat "" (map (fun row => Py.join Py.tab (map str_of_sqlval row) ++ nl) rows)
  | ShowNoResults => "No results found for your query." ++ nl
  | ShowDatabaseError se (Some sql) =>
      if bound
      then "Database Error executing SQL: " ++ se ++ nl ++ "Generated SQL: " ++ sql ++ nl
      else ""
  | ShowDatabaseError se None => ""
  | ShowError e =>
      if bound then "AI/Execution Error: " ++ e ++ nl else ""
  end.

(** ** The chatbot: [retrieve_context], [gemini_chat_response],
    [process_chat_response] *)

Definition stop_words : list string :=
  ["what"; "is"; "are"; "tell"; "me"; "about"; "who"; "which"; "show";
   "list"; "of"; "the"; "a"; "an"; "find"].

Definition is_stop_word (word : string) : bool :=
  existsb (String.eqb word) stop_words.

(** Lines 904-907: the keywords of a query. *)
Definition keywords (query : string) : list string :=
  Re.findall_words (Py.lower query).

Definition filtered_keywords (query : string) : list string :=
  filter (fun word => negb (is_stop_word word) && (2 <? String.length word)%nat)
         (keywords query).

Definition sql_part : string :=
  "name LIKE ? OR products LIKE ? OR category LIKE ?".

Definition like_param (kw : string) : string := "%" ++ kw ++ "%".

Definition context_sql (sql_parts : list string) : string :=
  "SELECT name, products, category FROM producers WHERE " ++
  Py.join " OR " sql_parts ++ " LIMIT 5".

Definition or_na (v : sqlval) : string :=
  if truthy v then str_of_sqlval v else "N/A".

Definition format_row (row : list sqlval) : M string :=
  name <- index row 0 ;;
  products <- index row 1 ;;
  category <- index row 2 ;;
  ret ("- Name: " ++ str_of_sqlval name ++
       ", Products: " ++ or_na products ++
       ", Category: " ++ or_na category).

Definition header_line : string :=
  "Relevant producer information from the database:".
Definition error_line : string :=
  "An error occurred while trying to retrieve information from the database.".
Definition no_match_line : string :=
  "No specific producer data found in the database for your query.".
Definition description_line : string :=
  nl ++ "General information about GlobalEnergyDB: This project aims to centralize data on global energy production, consumption, and reserves. It includes details on producers and their products (e.g., solar, wind, oil, gas).".

Definition retrieve_context (w : world) (query : string) : M string :=
  let filtered_keywords := filtered_keywords query in
  set_context_data [] ;;
  try_except
    (sqlite3_connect w ;;
     let sql_parts := map (fun _ => sql_part) filtered_keywords in
     let params :=
       flat_map (fun kw => [like_param kw; like_param kw; like_param kw])
                filtered_keywords in
     when (negb (Nat.eqb (List.length sql_parts) 0))
       (let query_sql := context_sql sql_parts in
        cursor <- cursor_execute w query_sql params ;;
        let rows := rows cursor in
        when (negb (Nat.eqb (List.length rows) 0))
          (append_context header_line ;;
           for_each rows (fun row =>
             line <- format_row row ;;
             append_context line))) ;;
     emit EvClose)
    (fun e =>
       emit (EvPrint ("Error fetching producer data for context: " ++ str_of_exn e)) ;;
       append_context error_line) ;;
  context_data <- get_context_data ;;
  when (Nat.eqb (List.length context_data) 0) (append_context no_match_line) ;;
  append_context description_line ;;
  context_data <- get_context_data ;;
  ret (Py.join nl context_data).

Definition chat_prompt (user_query context : string) : string :=
  "You are a helpful assistant providing information about global energy data. " ++
  "Answer the following question concisely based ONLY on the provided context about producers. " ++
  "If the answer is not available in the context, respond with: " ++
  "'I don't have that specific information in my database. You might find it by searching online. [WEB_SEARCH_SUGGESTION: " ++ user_query ++ " global energy]' " ++
  "Otherwise, provide the answer directly from the context. " ++
  nl ++ nl ++ "Context:" ++ nl ++ context ++ nl ++ nl ++ "Question: " ++ user_query.

Definition unavailable_text : string :=
  "Chatbot is currently unavailable: Gemini AI not configured.".
Definition sorry_text : string :=
  "I'm sorry, I encountered an error while processing your request. Please try again.".

Definition gemini_chat_response (w : world) (user_query context : string)
  : M string :=
  if negb (gemini_model w) then ret unavailable_text
  else
    try_except
      (let prompt := chat_prompt user_query context in
       call_model w prompt)
      (fun e =>
         emit (EvPrint ("Gemini AI Error in chatbot response: " ++ str_of_exn e)) ;;
         ret sorry_text).

(** The reply of the assistant, as the spec names its two shapes. *)
Inductive AssistantReply :=
| Grounded (text : string)
| FallbackSuggested (clean_response_text suggested_query : string).

Definition canned_text (suggested_query : string) : string :=
  "I couldn't find a direct answer, but I've opened a web search for '" ++
  suggested_query ++ "' for you.".

(** Lines 967-975 and 980: what is read out of the model's text. *)
Definition parse_reply (response_text : string) : AssistantReply :=
  match Re.search_marker response_text with
  | Some m =>
      let suggested_query := Py.strip (Re.group1 m) in
      let clean_response_text :=
        Py.strip (Py.remove_all response_text (Re.group0 m)) in
      let clean_response_text :=
        if clean_response_text =? "" then canned_text suggested_query
        else clean_response_text in
      FallbackSuggested clean_response_text suggested_query
  | None => Grounded response_text
  end.

Definition google_url (suggested_query : string) : string :=
  "https://www.google.com/search?q=" ++ Py.quote suggested_query.

Definition display_message (sender message : string) (is_link : bool)
           (link_url : option string) : M unit :=
  emit (EvDisplayMessage sender message is_link link_url).

Definition process_chat_response (w : world) (query : string) : M unit :=
  try_finally
    (try_except
       (context <- retrieve_context w query ;;
        emit (EvPrint ("Context provided to LLM:" ++ nl ++ context ++ nl ++ "---")) ;;
        response_text <- gemini_chat_response w query context ;;
        match parse_reply response_text with
        | FallbackSuggested clean_response_text suggested_query =>
            display_message "Bot" clean_response_text true
                            (Some (google_url suggested_query)) ;;
            emit (EvOpenNewTab (google_url suggested_query))
        | Grounded text => display_message "Bot" text false None
        end)
       (fun e => display_message "Bot" ("An error occurred: " ++ str_of_exn e) false None))
    (emit EvPackForget ;; emit EvSendButtonNormal).

(** Running a work unit from a fresh state. *)
Definition run {A} (m : M A) : result A * list event :=
  let (r, st) := m initial in (r, trace st).

Definition events_of {A} (m : M A) : list event := snd (run m).

(** * Observing the program *)

(** ** What a computation adds to the trace

    [emits p m]: whatever [m] returns or raises, the events it adds all
    satisfy [p], and the events before it stay. *)

Definition extends (p : event -> bool) (st st' : state) : Prop :=
  exists t, trace st' = (trace st ++ t)%list /\ forallb p t = true.

Definition emits (p : event -> bool) {A} (m : M A) : Prop :=
  forall st, extends p st (snd (m st)).

(** ** What a trace shows *)

(** The statements handed to [cursor.execute]. *)
Definition executed (t : list event) : list string :=
  flat_map (fun ev => match ev with EvExecute sql _ => [sql] | _ => [] end) t.

(** The calls on the store: connecting, executing, closing. *)
Definition is_store_event (ev : event) : bool :=
  match ev with
  | EvConnect | EvExecute _ _ | EvClose => true
  | _ => false
  end.

Definition store_events (t : list event) : list event := filter is_store_event t.


(** The messages shown in the chat window. *)
Definition displayed (t : list event) : list string :=
  flat_map (fun ev => match ev with
                      | EvDisplayMessage _ message _ _ => [message]
                      | _ => []
                      end) t.

(** The addresses opened in the browser. *)
Definition opened (t : list event) : list string :=
  flat_map (fun ev => match ev with EvOpenNewTab url => [url] | _ => [] end) t.

(** The events of the store, the model and the console: everything but what
    reaches the user's window or the browser. *)
Definition is_backstage (ev : event) : bool :=
  match ev with
  | EvPrint _ | EvSendMessage _ | EvConnect | EvExecute _ _ | EvClose => true
  | _ => false
  end.

(** ** The traces of the two work units, in closed form *)

Definition lookup_sql (query : string) : string :=
  context_sql (map (fun _ => sql_part) (filtered_keywords query)).

Definition lookup_params (query : string) : list string :=
  flat_map (fun kw => [like_param kw; like_param kw; like_param kw])
           (filtered_keywords query).

Definition fetch_error_print (e : exn) : event :=
  EvPrint ("Error fetching producer data for context: " ++ str_of_exn e).

(** The callback a handler of [run_query_in_thread] schedules for [e]. *)
Definition error_callback (e : exn) (generated_sql : option string) : callback :=
  match e with
  | SqliteError se => ShowDatabaseError se generated_sql
  | OtherError msg => ShowError msg
  end.

Definition result_callback (cursor : table) : callback :=
  match rows cursor with
  | [] => ShowNoResults
  | _ => ShowResults (description cursor) (rows cursor)
  end.

(** What follows the model's answer [response_text]. *)
Definition after_answer (w : world) (response_text : string) : list event :=
  let sql := Py.strip response_text in
  EvPrint ("Generated SQL (raw): " ++ sql) ::
  match validate sql with
  | Rejected => [EvAfter ShowInvalid]
  | Valid =>
      EvConnect ::
      match connect w with
      | Some e => [EvAfter (error_callback e (Some sql))]
      | None =>
          EvExecute sql [] ::
          match execute w sql [] with
          | Raise e => [EvAfter (error_callback e (Some sql))]
          | Return cursor => [EvClose; EvAfter (result_callback cursor)]
          end
      end
  end.

(** What [gemini_chat_response] returns and what it adds to the trace. *)
Definition response_text_of (w : world) (user_query context : string) : string :=
  if negb (gemini_model w) then unavailable_text
  else match send_message w (chat_prompt user_query context) with
       | Return text => text
       | Raise _ => sorry_text
       end.

Definition gemini_events (w : world) (user_query context : string) : list event :=
  if negb (gemini_model w) then []
  else EvSendMessage (chat_prompt user_query context) ::
       match send_message w (chat_prompt user_query context) with
       | Return _ => []
       | Raise e => [EvPrint ("Gemini AI Error in chatbot response: " ++ str_of_exn e)]
       end.

(** What the window and the browser get for a reply. *)
Definition reply_events (reply : AssistantReply) : list event :=
  match reply with
  | FallbackSuggested clean_response_text suggested_query =>
      [EvDisplayMessage "Bot" clean_response_text true
                        (Some (google_url suggested_query));
       EvOpenNewTab (google_url suggested_query)]
  | Grounded text => [EvDisplayMessage "Bot" text false None]
  end.

(** The context a chat turn retrieves and the reply it reads. *)
Definition context_of (w : world) (query : string) : string :=
  match fst (run (retrieve_context w query)) with
  | Return context => context
  | Raise _ => ""
  end.

Definition reply_of (w : world) (query : string) : AssistantReply :=
  parse_reply (response_text_of w query (context_of w query)).

Definition context_print (context : string) : event :=
  EvPrint ("Context provided to LLM:" ++ nl ++ context ++ nl ++ "---").

(** ** The vocabulary of the claims *)

Definition line_feed : ascii := ascii_of_N 10.

Definition infix (word s : string) : Prop :=
  exists pre post, s = pre ++ word ++ post.









(** The reply text with the first marker taken out, as it is displayed. *)
Definition cleaned (response_text marker suggested_query : string) : string :=
  let clean_response_text := Py.strip (Py.remove_all response_text marker) in
  if clean_response_text =? "" then canned_text suggested_query
  else clean_response_text.


(** ** Worlds to run the program in *)

(** A world whose model answers [answer] to every prompt and whose store
    holds one producer. *)
Definition spy_world (answer : string) : world :=
  {| gemini_model := true;
     send_message := fun _ => Return answer;
     connect := None;
     execute := fun _ _ =>
       Return {| description := ["name"; "products"; "category"];
                 rows := [[SqlText "Acme Wind"; SqlText "wind turbines"; SqlText "Wind"]] |} |}.

(** A world whose store cannot be opened, and one whose lookup fails. *)
Definition closed_world : world :=
  {| gemini_model := true;
     send_message := fun _ => Return "Wind power is produced by Acme Wind.";
     connect := Some (SqliteError "unable to open database file");
     execute := fun _ _ => Return {| description := []; rows := [] |} |}.

Definition failing_world : world :=
  {| gemini_model := true;
     send_message := fun _ => Return "Wind power is produced by Acme Wind.";
     connect := None;
     execute := fun _ _ => Raise (SqliteError "database is locked") |}.


(** * More of the program

    The parts of [src/app.py] around the assistant: the producer form
    ([add_producer], [update_producer], [delete_producer],
    [on_producer_tree_select]), the import and export of files and the web
    searches, with the properties of the assistant that go beyond the
    claims. *)

(** ** More of Python's [str] *)

Module Str.


(** [s[n:]] *)
Fixpoint drop (n : nat) (s : string) : string :=
  match n, s with
  | S n', String _ s' => drop n' s'
  | _, _ => s
  end.

(** [s.endswith(suffix)] *)
Definition endswith (s suffix : string) : bool :=
  (String.length suffix <=? String.length s)%nat &&
  (drop (String.length s - String.length suffix) s =? suffix).

(** [sub in s] *)
Definition contains (s sub : string) : bool :=
  match Py.find s sub with
  | Some _ => true
  | None => false
  end.

(** [s.split(sep)] for a non-empty [sep]: the pieces between the
    occurrences of [sep], found left to right without overlap.  [current]
    is the piece under the cursor, [skip] counts the characters of the
    separator that the cursor still has to pass. *)
Fixpoint split_from (skip : nat) (sep current s : string) : list string :=
  match s with
  | EmptyString => [current]
  | String c s' =>
      match skip with
      | S k => split_from k sep current s'
      | O =>
          if Py.startswith s sep
          then current :: split_from (String.length sep - 1) sep EmptyString s'
          else split_from 0 sep (current ++ String c EmptyString) s'
      end
  end.

Definition split (s sep : string) : list string := split_from 0 sep EmptyString s.

End Str.

(** ** The vocabulary of the further properties *)

(** The characters [quote] leaves in a text: the ones it keeps, and the
    percent sign of an escape. *)
Definition is_url_char (c : ascii) : bool :=
  Py.is_quote_safe c || (Py.code c =? 37)%N.

Definition search_prefix : string := "https://www.google.com/search?q=".



(** The line of the context for a row of at least three cells. *)
Definition row_line (row : list sqlval) : string :=
  "- Name: " ++ str_of_sqlval (nth 0 row SqlNull) ++
  ", Products: " ++ or_na (nth 1 row SqlNull) ++
  ", Category: " ++ or_na (nth 2 row SqlNull).

(** The lines of the context before the project description, for the rows
    a lookup found. *)
Definition found_lines (found : list (list sqlval)) : list string :=
  match found with
  | [] => [no_match_line]
  | _ => header_line :: map row_line found
  end.

Definition is_not_close (ev : event) : bool :=
  match ev with
  | EvClose => false
  | _ => true
  end.

(** The parts of [retrieve_context]: the lookup between the opening and the
    closing of the connection, the handler of its [try], and what follows
    the [try]. *)
Definition lookup_rows (w : world) (query : string) : M unit :=
  let sql_parts := map (fun _ => sql_part) (filtered_keywords query) in
  let params :=
    flat_map (fun kw => [like_param kw; like_param kw; like_param kw])
             (filtered_keywords query) in
  when (negb (Nat.eqb (List.length sql_parts) 0))
    (let query_sql := context_sql sql_parts in
     cursor <- cursor_execute w query_sql params ;;
     let rows := rows cursor in
     when (negb (Nat.eqb (List.length rows) 0))
       (append_context header_line ;;
        for_each rows (fun row =>
          line <- format_row row ;;
          append_context line))).

Definition report_lookup_error (e : exn) : M unit :=
  emit (EvPrint ("Error fetching producer data for context: " ++ str_of_exn e)) ;;
  append_context error_line.

Definition finish_context : M string :=
  context_data <- get_context_data ;;
  when (Nat.eqb (List.length context_data) 0) (append_context no_match_line) ;;
  append_context description_line ;;
  context_data <- get_context_data ;;
  ret (Py.join nl context_data).

(** The sentence that the prompt of [gemini_chat_response] tells the model
    to answer with when the context does not hold the answer. *)
Definition instructed_sentence : string :=
  "I don't have that specific information in my database. You might find it by searching online.".

Definition instructed_reply (user_query : string) : string :=
  instructed_sentence ++ " [WEB_SEARCH_SUGGESTION: " ++ user_query ++ " global energy]".

(** A world without a configured model. *)
Definition unconfigured_world : world :=
  {| gemini_model := false;
     send_message := fun _ => Raise (OtherError "no model");
     connect := None;
     execute := fun _ _ => Return {| description := []; rows := [] |} |}.

(** ** The producers table and the connection of the session

    The table as the connection of the interactive session sees it and as
    the last commit left it.  The store is taken to fail only by its
    UNIQUE constraint on the name, and SELECT * to return the rows in the
    order of their ids.  The boxes of [messagebox], the entries and the
    tree are taken to return; what the user answers, what the file system
    and [csv.reader] hand back and what the model says is an argument of
    the function that asks for it. *)

Module Producers.

Record producer := {
  p_id : Z;
  p_name : string;
  p_contact : string;
  p_address : string;
  p_products : string;
  p_category : string
}.

(** The rows in the order of their ids, and the largest id given so far
    (the table is AUTOINCREMENT). *)
Record store := { producers : list producer; sequence : Z }.

Record connection := { now : store; saved : store }.

(** [conn.commit()] and [conn.rollback()] *)
Definition commit (c : connection) : connection :=
  {| now := now c; saved := now c |}.

Definition rollback (c : connection) : connection :=
  {| now := saved c; saved := saved c |}.

(** [producer_exists]: SELECT 1 FROM producers WHERE name = ? finds a row. *)
Definition producer_exists (name : string) (c : connection) : bool :=
  existsb (fun p => p_name p =? name) (producers (now c)).

(** INSERT INTO producers (name, contact, address, products, category) *)
Definition insert_producer (name contact address products category : string)
           (c : connection) : result connection :=
  if producer_exists name c
  then Raise (SqliteError "UNIQUE constraint failed: producers.name")
  else
    let new_id := (sequence (now c) + 1)%Z in
    Return {| now := {| producers :=
                          producers (now c)
                          ++ [{| p_id := new_id;
                                 p_name := name;
                                 p_contact := contact;
                                 p_address := address;
                                 p_products := products;
                                 p_category := category |}];
                        sequence := new_id |};
              saved := saved c |}.

(** What the window shows and asks, and what goes to the model and to the
    console. *)
Inductive ui_event :=
| BoxInfo (title message : string)
| BoxWarning (title message : string)
| BoxError (title message : string)
| BoxAskYesNo (title message : string)
| FieldsCleared
| TreeLoaded (shown : list producer)
| Printed (line : string)
| ModelAsked (prompt : string)
| TabOpened (url : string)
| DialogClosed.

Record app := { db : connection; ui : list ui_event }.

Definition show (ev : ui_event) (a : app) : app :=
  {| db := db a; ui := ui a ++ [ev] |}.

(** [load_producers_data()] without a search: the tree is emptied and
    filled with SELECT * FROM producers. *)
Definition load_producers_data (a : app) : app :=
  show (TreeLoaded (producers (now (db a)))) a.

(** *** [import_producers_from_file] *)

(** What [csv.reader] yields for the chosen file: the rows, and the
    exception that ends the reading if there is one; or the file cannot be
    opened. *)
Inductive reading :=
| CannotOpen (e : exn)
| Reads (rows : list (list string)) (failure : option exn).

(** [header_map.get(key)], with [header_map] the dict comprehension of
    line 506: the last column whose trimmed lower-case name is [key]. *)
Fixpoint column_from (i : nat) (header : list string) (key : string) : option nat :=
  match header with
  | [] => None
  | col :: rest =>
      match column_from (S i) rest key with
      | Some j => Some j
      | None => if Py.lower (Py.strip col) =? key then Some i else None
      end
  end.

Definition column (header : list string) (key : string) : option nat :=
  column_from 0 header key.

Record columns := {
  name_idx : nat;
  contact_idx : nat;
  address_idx : nat;
  products_idx : nat;
  category_idx : nat
}.

Definition find_columns (header : list string) : option columns :=
  match column header "name", column header "contact", column header "address",
        column header "products", column header "category" with
  | Some n, Some c, Some a, Some p, Some g =>
      Some {| name_idx := n; contact_idx := c; address_idx := a;
              products_idx := p; category_idx := g |}
  | _, _, _, _, _ => None
  end.

Definition max_idx (cols : columns) : nat :=
  Nat.max (name_idx cols)
    (Nat.max (contact_idx cols)
       (Nat.max (address_idx cols)
          (Nat.max (products_idx cols) (category_idx cols)))).

(** [row[i].strip()]; line 523 lets only rows through that have the cell. *)
Definition cell (row : list string) (i : nat) : string :=
  Py.strip (nth i row EmptyString).

Record counters := {
  imported_count : nat;
  skipped_duplicates : nat;
  skipped_malformed : nat
}.

Definition no_counts : counters :=
  {| imported_count := 0; skipped_duplicates := 0; skipped_malformed := 0 |}.

(** The loop of lines 522-537. *)
Fixpoint import_rows (cols : columns) (rows : list (list string))
         (c : connection) (n : counters) : result counters * connection :=
  match rows with
  | [] => (Return n, c)
  | row :: rest =>
      if (max_idx cols <? List.length row)%nat
      then
        let name := cell row (name_idx cols) in
        let contact := cell row (contact_idx cols) in
        let address := cell row (address_idx cols) in
        let products := cell row (products_idx cols) in
        let category := cell row (category_idx cols) in
        if producer_exists name c
        then import_rows cols rest c
               {| imported_count := imported_count n;
                  skipped_duplicates := skipped_duplicates n + 1;
                  skipped_malformed := skipped_malformed n |}
        else
          match insert_producer name contact address products category c with
          | Raise e => (Raise e, c)
          | Return c' =>
              import_rows cols rest c'
                {| imported_count := imported_count n + 1;
                   skipped_duplicates := skipped_duplicates n;
                   skipped_malformed := skipped_malformed n |}
          end
      else import_rows cols rest c
             {| imported_count := imported_count n;
                skipped_duplicates := skipped_duplicates n;
                skipped_malformed := skipped_malformed n + 1 |}
  end.

Definition str_of_nat (n : nat) : string := Py.str_of_Z (Z.of_nat n).

Definition summary_message (n : counters) : string :=
  "Producer import complete:" ++ nl ++
  "  - Successfully imported: " ++ str_of_nat (imported_count n) ++ " records." ++ nl ++
  "  - Skipped (Duplicates): " ++ str_of_nat (skipped_duplicates n) ++ " records." ++ nl ++
  "  - Skipped (Malformed rows): " ++ str_of_nat (skipped_malformed n) ++ " records.".

(** The handler of line 547. *)
Definition import_failed (e : exn) (a : app) : app :=
  show (BoxError "Import Error" ("Failed to import producer file: " ++ str_of_exn e))
       {| db := rollback (db a); ui := ui a |}.

(** [next(reader)] on a reader that has nothing more raises StopIteration,
    whose text is empty. *)
Definition stop_iteration : exn := OtherError "".

Definition import_producers_from_file (filepath : string) (file : reading)
           (a : app) : app :=
  if filepath =? "" then a
  else if negb (Str.endswith (Py.lower filepath) ".csv"
                || Str.endswith (Py.lower filepath) ".txt")
  then show (BoxWarning "Unsupported Format"
               "Only CSV and TXT files are supported for data import.") a
  else
    match file with
    | CannotOpen e => import_failed e a
    | Reads [] failure =>
        import_failed (match failure with Some e => e | None => stop_iteration end) a
    | Reads (header :: rows) failure =>
        match find_columns header with
        | None =>
            show (BoxError "Import Error"
                    "CSV/TXT header must contain 'Name', 'Contact', 'Address', 'Products', and 'Category' columns.") a
        | Some cols =>
            match import_rows cols rows (db a) no_counts with
            | (Raise e, c) => import_failed e {| db := c; ui := ui a |}
            | (Return n, c) =>
                match failure with
                | Some e => import_failed e {| db := c; ui := ui a |}
                | None =>
                    load_producers_data
                      (show (BoxInfo "Import Summary" (summary_message n))
                            {| db := commit c; ui := ui a |})
                end
            end
        end
    end.

(** *** [add_producer] *)

(** What the five entry fields hold. *)
Record entries := {
  entry_name : string;
  entry_contact : string;
  entry_address : string;
  entry_products : string;
  entry_category : string
}.

Definition ai_prompt (name contact address : string) : string :=
  "Given the producer name '" ++ name ++ "', contact '" ++ contact
  ++ "', and address '" ++ address ++ "', "
  ++ "suggest a suitable category (e.g., 'Solar', 'Wind', 'Hydro', 'Biofuel', 'Geothermal', 'Nuclear', 'Fossil Fuel') "
  ++ "and representative products. Format as 'Category: [category], Products: [product1, product2]'. If no information is sufficient, state 'Category: Unknown, Products: None'.".

(** [xs[i]], IndexError when there is no such item. *)
Definition item (xs : list string) (i : nat) : result string :=
  match nth_error xs i with
  | Some x => Return x
  | None => Raise (OtherError "list index out of range")
  end.

(** Lines 229-239: the suggested category and the suggested products. *)
Definition parse_suggestion (suggestion_text : string) : result (string * string) :=
  if Str.contains suggestion_text "Category:" && Str.contains suggestion_text "Products:"
  then
    let parts := Str.split suggestion_text "Category:" in
    if (1 <? List.length parts)%nat
    then
      match item parts 1 with
      | Raise e => Raise e
      | Return after_category =>
          match item (Str.split after_category "Products:") 0 with
          | Raise e => Raise e
          | Return before_products =>
              let category_part := Py.remove_all (Py.strip before_products) "," in
              let suggested_category := Py.strip category_part in
              match item (Str.split suggestion_text "Products:") 1 with
              | Raise e => Raise e
              | Return after_products =>
                  let products_part := Py.strip after_products in
                  Return (suggested_category, Py.strip products_part)
              end
          end
      end
    else Return ("Unknown", "None")
  else Return ("Unknown", "None").

Definition suggestion_question (suggested_category suggested_products : string) : string :=
  "AI suggests:" ++ nl ++ "Category: " ++ suggested_category ++ nl
  ++ "Products: " ++ suggested_products ++ nl ++ nl
  ++ "Do you want to apply these suggestions?".

Definition suggestion_failed (e : exn) (a : app) : app :=
  show (BoxWarning "AI Suggestion Error"
          ("Failed to get AI suggestions: " ++ str_of_exn e)) a.

(** Lines 216-251: the products and the category that go to the INSERT.
    [answer] is what the user answers when [askyesno] is shown; the model
    is consulted when [get_gemini_model()] returns one. *)
Definition suggest (w : world) (answer : bool)
           (name contact address products category : string) (a : app)
  : (string * string) * app :=
  if gemini_model w && ((category =? "") || (products =? ""))
  then
    let a1 := show (ModelAsked (ai_prompt name contact address)) a in
    match send_message w (ai_prompt name contact address) with
    | Raise e => ((products, category), suggestion_failed e a1)
    | Return text =>
        let suggestion_text := Py.strip text in
        let a2 := show (Printed ("AI Suggestion: " ++ suggestion_text)) a1 in
        match parse_suggestion suggestion_text with
        | Raise e => ((products, category), suggestion_failed e a2)
        | Return (suggested_category, suggested_products) =>
            if negb (suggested_category =? "Unknown")
               || negb (suggested_products =? "None")
            then
              let a3 := show (BoxAskYesNo "AI Suggestion"
                                (suggestion_question suggested_category
                                                     suggested_products)) a2 in
              if answer
              then
                let category' :=
                  if (category =? "") && negb (suggested_category =? "Unknown")
                  then suggested_category else category in
                let products' :=
                  if (products =? "") && negb (suggested_products =? "None")
                  then suggested_products else products in
                ((products', category'), a3)
              else ((products, category), a3)
            else ((products, category), a2)
        end
    end
  else ((products, category), a).

Definition add_producer (w : world) (answer : bool) (e : entries) (a : app) : app :=
  let name := Py.strip (entry_name e) in
  let contact := Py.strip (entry_contact e) in
  let address := Py.strip (entry_address e) in
  let products := Py.strip (entry_products e) in
  let category := Py.strip (entry_category e) in
  if name =? ""
  then show (BoxWarning "Input Error" "Producer Name cannot be empty.") a
  else if producer_exists name (db a)
  then show (BoxWarning "Duplicate Entry"
               ("A producer with the name '" ++ name ++ "' already exists.")) a
  else
    let '((products', category'), a') :=
      suggest w answer name contact address products category a in
    match insert_producer name contact address products' category' (db a') with
    | Return c =>
        load_producers_data
          (show FieldsCleared
             (show (BoxInfo "Success" "Producer added successfully!")
                   {| db := commit c; ui := ui a' |}))
    | Raise err =>
        show (BoxError "Database Error"
                ("Failed to add producer: " ++ str_of_exn err)) a'
    end.

(** *** [update_producer] and [delete_producer] *)

(** The row of the tree that is selected: its item id and the cells it
    was loaded with.  The tree is in browse mode, so there is one at most,
    and it hands the cells back as they were stored. *)
Record selection := { iid : string; shown : producer }.

(** UPDATE producers SET ... WHERE id=?: the row of that id gets the five
    texts, unless another row has the name. *)
Definition set_row (id : Z) (row : producer) (table : list producer) : list producer :=
  map (fun p => if (p_id p =? id)%Z then row else p) table.

Definition update_rows (id : Z) (name contact address products category : string)
           (c : connection) : result connection :=
  let table := producers (now c) in
  if existsb (fun p => (p_id p =? id)%Z) table
     && existsb (fun p => (p_name p =? name) && negb (p_id p =? id)%Z) table
  then Raise (SqliteError "UNIQUE constraint failed: producers.name")
  else
    Return {| now := {| producers :=
                          set_row id {| p_id := id;
                                        p_name := name;
                                        p_contact := contact;
                                        p_address := address;
                                        p_products := products;
                                        p_category := category |} table;
                        sequence := sequence (now c) |};
              saved := saved c |}.

(** DELETE FROM producers WHERE id=? *)
Definition delete_rows (id : Z) (c : connection) : connection :=
  {| now := {| producers := filter (fun p => negb (p_id p =? id)%Z) (producers (now c));
               sequence := sequence (now c) |};
     saved := saved c |}.

Definition assessment_prompt (name contact address products category : string) : string :=
  "Review the following producer data for potential issues or suggestions: "
  ++ "Name: " ++ name ++ ", Contact: " ++ contact ++ ", Address: " ++ address
  ++ ", Products: " ++ products ++ ", Category: " ++ category ++ ". "
  ++ "Provide a brief assessment or suggest improvements if any. If no issues, state 'No issues found'.".

(** Lines 288-301. *)
Definition assess (w : world) (name contact address products category : string)
           (a : app) : app :=
  if gemini_model w
  then
    let ai_prompt := assessment_prompt name contact address products category in
    let a1 := show (ModelAsked ai_prompt) a in
    match send_message w ai_prompt with
    | Raise e =>
        show (BoxWarning "AI Assessment Error"
                ("Failed to get AI assessment: " ++ str_of_exn e)) a1
    | Return text =>
        let ai_assessment := Py.strip text in
        if negb (ai_assessment =? "") && negb (ai_assessment =? "No issues found.")
        then show (BoxInfo "AI Assessment"
                     ("AI reviewed the update:" ++ nl ++ nl ++ ai_assessment)) a1
        else a1
    end
  else a.

Definition update_producer (w : world) (selected : option selection)
           (e : entries) (a : app) : app :=
  match selected with
  | None =>
      show (BoxWarning "Selection Error" "Please select a producer to update.") a
  | Some sel =>
      let producer_id := p_id (shown sel) in
      let name := Py.strip (entry_name e) in
      let contact := Py.strip (entry_contact e) in
      let address := Py.strip (entry_address e) in
      let products := Py.strip (entry_products e) in
      let category := Py.strip (entry_category e) in
      if name =? ""
      then show (BoxWarning "Input Error" "Producer Name cannot be empty.") a
      else
        let original_name := p_name (shown sel) in
        if negb (name =? original_name) && producer_exists name (db a)
        then show (BoxWarning "Duplicate Entry"
                     ("A producer with the name '" ++ name
                      ++ "' already exists. Cannot update to a duplicate name.")) a
        else
          let a' := assess w name contact address products category a in
          match update_rows producer_id name contact address products category (db a') with
          | Return c =>
              load_producers_data
                (show FieldsCleared
                   (show (BoxInfo "Success" "Producer updated successfully!")
                         {| db := commit c; ui := ui a' |}))
          | Raise err =>
              show (BoxError "Database Error"
                      ("Failed to update producer: " ++ str_of_exn err)) a'
          end
  end.

(** [str] of what [tree_producers.selection()] returns, a tuple of item
    ids; an item id is taken to hold no quote and no backslash. *)
Definition str_of_selection (selected : option selection) : string :=
  match selected with
  | None => "()"
  | Some sel => "('" ++ iid sel ++ "',)"
  end.

Definition confirmation_prompt (producer_name : string) (producer_id : Z) : string :=
  "Generate a brief confirmation message for deleting the producer '" ++ producer_name
  ++ "' (ID: " ++ Py.str_of_Z producer_id ++ "). "
  ++ "Emphasize that the action is irreversible. Keep it concise, around one sentence.".

Definition default_confirmation (producer_name : string) (producer_id : Z) : string :=
  "Are you sure you want to delete producer '" ++ producer_name
  ++ "' (ID: " ++ Py.str_of_Z producer_id ++ ")?".

(** Lines 324-336: the confirmation message the model proposes, empty
    when there is none. *)
Definition ai_confirmation (w : world) (producer_name : string) (producer_id : Z)
           (a : app) : string * app :=
  if gemini_model w
  then
    let ai_prompt := confirmation_prompt producer_name producer_id in
    let a1 := show (ModelAsked ai_prompt) a in
    match send_message w ai_prompt with
    | Return text => (Py.strip text, a1)
    | Raise e =>
        (EmptyString,
         show (Printed ("AI confirmation prompt failed: " ++ str_of_exn e)) a1)
    end
  else (EmptyString, a).

Definition irreversible : string := nl ++ nl ++ "This action cannot be undone.".

(** [answer] is what the user answers to [askyesno]. *)
Definition delete_producer (w : world) (answer : bool) (selected : option selection)
           (a : app) : app :=
  let a0 := show (Printed ("Delete function - selected_item: "
                           ++ str_of_selection selected)) a in
  match selected with
  | None =>
      show (BoxWarning "Selection Error" "Please select a producer to delete.") a0
  | Some sel =>
      let producer_id := p_id (shown sel) in
      let producer_name := p_name (shown sel) in
      let '(proposed, a1) := ai_confirmation w producer_name producer_id a0 in
      let ai_confirmation_message :=
        if proposed =? "" then default_confirmation producer_name producer_id
        else proposed in
      let a2 := show (BoxAskYesNo "Confirm Delete"
                        (ai_confirmation_message ++ irreversible)) a1 in
      if answer
      then
        load_producers_data
          (show FieldsCleared
             (show (BoxInfo "Success" "Producer deleted successfully!")
                   {| db := commit (delete_rows producer_id (db a2)); ui := ui a2 |}))
      else a2
  end.

(** [on_producer_tree_select]: with a row selected, the five entries are
    emptied and filled with the texts of the row. *)
Definition on_producer_tree_select (selected : option selection) (e : entries)
           (a : app) : entries * app :=
  let a' := show (Printed ("Treeview selection event - selected_item: "
                           ++ str_of_selection selected)) a in
  match selected with
  | Some sel =>
      ({| entry_name := p_name (shown sel);
          entry_contact := p_contact (shown sel);
          entry_address := p_address (shown sel);
          entry_products := p_products (shown sel);
          entry_category := p_category (shown sel) |},
       a')
  | None => (e, a')
  end.

(** *** The web searches *)

(** [web_search_producer] *)
Definition web_search_producer (selected : option selection) (a : app) : app :=
  match selected with
  | None =>
      show (BoxWarning "Selection Error"
              "Please select a producer to perform a web search.") a
  | Some sel =>
      let product_name := p_products (shown sel) in
      if negb (product_name =? "")
      then show (TabOpened (google_url (product_name ++ " energy product"))) a
      else show (BoxInfo "Web Search"
                   "No product name found for web search for the selected producer.") a
  end.

(** [web_search_product_keyword], on what the keyword entry holds. *)
Definition web_search_product_keyword (entry : string) (a : app) : app :=
  let keyword := Py.strip entry in
  if keyword =? ""
  then show (BoxWarning "Input Error"
               "Please enter a keyword for product web search.") a
  else
    let search_query := "companies producing " ++ keyword ++ " energy" in
    show (BoxInfo "Web Search Initiated"
            ("Opening web search for '" ++ search_query ++ "' in your browser."))
         (show (TabOpened (google_url search_query)) a).

(** [search_for_suppliers] *)
Definition search_for_suppliers (product_keyword : string) (a : app) : app :=
  if negb (product_keyword =? "")
  then show (TabOpened (google_url (product_keyword ++ " energy suppliers"))) a
  else show (BoxInfo "Web Search"
               "No product keyword provided for supplier search.") a.

(** [x or y] on two texts. *)
Definition or_else (x y : string) : string := if x =? "" then y else x.

(** [perform_search_from_dialog], on the custom entry and the combobox. *)
Definition perform_search_from_dialog (custom chosen : string) (a : app) : app :=
  let final_keyword := or_else (Py.strip custom) (Py.strip chosen) in
  show DialogClosed
       (if negb (final_keyword =? "")
        then search_for_suppliers final_keyword a
        else show (BoxWarning "Input Error"
                     "Please enter or select a keyword to search.") a).

(** [confirm_and_search] *)
Definition confirm_and_search (custom chosen : string) (a : app) : app :=
  let final_keyword := or_else (Py.strip custom) (Py.strip chosen) in
  if negb (final_keyword =? "")
  then
    let search_query := final_keyword ++ " global energy product suppliers" in
    show DialogClosed
         (show (BoxInfo "Web Search Initiated"
                  ("Opening web search for '" ++ search_query ++ "' in your browser."))
               (show (TabOpened (google_url search_query)) a))
  else show (BoxWarning "Input Required"
               "Please enter or select a keyword to search.") a.

(** *** [export_to_csv] *)

Definition export_header : list string :=
  ["ID"; "Name"; "Contact"; "Address"; "Products"; "Category"].

(** The cells the writer puts out for a row of SELECT * FROM producers. *)
Definition row_cells (p : producer) : list string :=
  [Py.str_of_Z (p_id p); p_name p; p_contact p; p_address p; p_products p; p_category p].

(** [failure] is the exception that opening the file or a write raises,
    if one does.  Returned with the session are the rows handed to the
    writer when the export went through. *)
Definition export_to_csv (filepath : string) (failure : option exn) (a : app)
  : app * option (list (list string)) :=
  if filepath =? "" then (a, None)
  else
    match failure with
    | Some e =>
        (show (BoxError "Export Error"
                 ("Failed to export producer data to CSV: " ++ str_of_exn e)) a,
         None)
    | None =>
        (show (BoxInfo "Export Success"
                 ("Producer data successfully exported to " ++ filepath)) a,
         Some (export_header :: map row_cells (producers (now (db a)))))
    end.

(** *** Reading the table and the file *)

Definition names (c : connection) : list string :=
  map p_name (producers (now c)).

(** [c] after the rows [added] were inserted one after the other. *)
Definition with_rows (c : connection) (added : list producer) : connection :=
  {| now := {| producers := (producers (now c) ++ added)%list;
               sequence := (sequence (now c) + Z.of_nat (List.length added))%Z |};
     saved := saved c |}.

(** The guard of line 523: the row has a cell in each of the five columns. *)
Definition well_formed (cols : columns) (row : list string) : bool :=
  (max_idx cols <? List.length row)%nat.

Definition malformed (cols : columns) (row : list string) : bool :=
  negb (well_formed cols row).

(** [p] holds the trimmed cells of [row]. *)
Definition from_row (cols : columns) (row : list string) (p : producer) : Prop :=
  p_name p = cell row (name_idx cols) /\
  p_contact p = cell row (contact_idx cols) /\
  p_address p = cell row (address_idx cols) /\
  p_products p = cell row (products_idx cols) /\
  p_category p = cell row (category_idx cols).

(** Every text of the row is trimmed. *)
Definition trimmed (p : producer) : Prop :=
  Py.strip (p_name p) = p_name p /\
  Py.strip (p_contact p) = p_contact p /\
  Py.strip (p_address p) = p_address p /\
  Py.strip (p_products p) = p_products p /\
  Py.strip (p_category p) = p_category p.

(** What the table's declaration and the program's trimming maintain:
    names and ids are distinct, no id is above the last one given, and
    every text is trimmed. *)
Definition tidy (s : store) : Prop :=
  NoDup (map p_name (producers s)) /\
  NoDup (map p_id (producers s)) /\
  Forall (fun p => (p_id p <= sequence s)%Z) (producers s) /\
  Forall trimmed (producers s).

Definition consistent (c : connection) : Prop := tidy (now c) /\ tidy (saved c).

(** The row that [update_producer] writes for the entries. *)
Definition typed_row (id : Z) (e : entries) : producer :=
  {| p_id := id;
     p_name := Py.strip (entry_name e);
     p_contact := Py.strip (entry_contact e);
     p_address := Py.strip (entry_address e);
     p_products := Py.strip (entry_products e);
     p_category := Py.strip (entry_category e) |}.

Definition updated_events (table : list producer) : list ui_event :=
  [BoxInfo "Success" "Producer updated successfully!"; FieldsCleared; TreeLoaded table].



(** The columns that [import_producers_from_file] finds in the header that
    [export_to_csv] writes. *)
Definition export_columns : columns :=
  {| name_idx := 1; contact_idx := 2; address_idx := 3;
     products_idx := 4; category_idx := 5 |}.


(** The addresses opened in the browser. *)
Definition tabs (l : list ui_event) : list string :=
  flat_map (fun ev => match ev with TabOpened url => [url] | _ => [] end) l.

(** A Google search address with one percent-encoded query. *)
Definition one_query (url : string) : Prop :=
  exists quoted,
    url = search_prefix ++ quoted /\ Py.all_chars is_url_char quoted = true.

(** From [a] to [out] the table is left alone and at most one address is
    opened, a search with one query. *)
Definition opens_one_query (a out : app) : Prop :=
  db out = db a /\
  exists news,
    ui out = (ui a ++ news)%list /\
    (List.length (tabs news) <= 1)%nat /\
    Forall one_query (tabs news).

(** Neither a box nor a tab: what goes to the console and to the model. *)
Definition is_quiet (ev : ui_event) : bool :=
  match ev with
  | Printed _ | ModelAsked _ => true
  | _ => false
  end.

(** A path that passes the guards of lines 494 and 497. *)
Definition supported (filepath : string) : bool :=
  negb (filepath =? "")
  && (Str.endswith (Py.lower filepath) ".csv"
      || Str.endswith (Py.lower filepath) ".txt").

(** A column of the header is called [key], up to case and blanks around. *)
Definition is_called (key col : string) : bool :=
  Py.lower (Py.strip col) =? key.

Definition five_columns : list string :=
  ["name"; "contact"; "address"; "products"; "category"].

Definition header_error : ui_event :=
  BoxError "Import Error"
    "CSV/TXT header must contain 'Name', 'Contact', 'Address', 'Products', and 'Category' columns.".

Definition import_error (e : exn) : ui_event :=
  BoxError "Import Error" ("Failed to import producer file: " ++ str_of_exn e).

Definition import_summary (n : counters) : ui_event :=
  BoxInfo "Import Summary" (summary_message n).


(** What [add_producer] shows after the INSERT went through. *)
Definition added_events (table : list producer) : list ui_event :=
  [BoxInfo "Success" "Producer added successfully!"; FieldsCleared; TreeLoaded table].

Definition sample_entries : entries :=
  {| entry_name := "  Acme Wind ";
     entry_contact := "info@acme.example";
     entry_address := "1 Mill Lane";
     entry_products := "";
     entry_category := " Wind" |}.


(** A model that answers every prompt with [text], and one that raises. *)
Definition answering (text : string) : world :=
  {| gemini_model := true;
     send_message := fun _ => Return text;
     connect := None;
     execute := fun _ _ => Return {| description := []; rows := [] |} |}.


(** A session whose table holds two producers, and a selection of the
    first. *)
Definition acme : producer :=
  {| p_id := 1; p_name := "Acme Wind"; p_contact := "info@acme.example";
     p_address := "1 Mill Lane"; p_products := "wind turbines"; p_category := "Wind" |}.

Definition helios : producer :=
  {| p_id := 2; p_name := "Helios"; p_contact := "sales@helios.example";
     p_address := "9 Sun Road"; p_products := "solar panels"; p_category := "Solar" |}.

Definition two_producers : app :=
  {| db := {| now := {| producers := [acme; helios]; sequence := 2 |};
              saved := {| producers := [acme; helios]; sequence := 2 |} |};
     ui := [] |}.

Definition acme_selected : selection := {| iid := "I001"; shown := acme |}.

(** A session on an empty table, and a small file. *)
Definition empty_connection : connection :=
  {| now := {| producers := []; sequence := 0 |};
     saved := {| producers := []; sequence := 0 |} |}.

Definition fresh_app : app := {| db := empty_connection; ui := [] |}.

Definition sample_header : list string :=
  ["Name"; " Contact "; "ADDRESS"; "Products"; "Category"].

Definition sample_columns : columns :=
  {| name_idx := 0; contact_idx := 1; address_idx := 2;
     products_idx := 3; category_idx := 4 |}.

Definition sample_rows : list (list string) :=
  [["Acme Wind"; "info@acme.example"; "1 Mill Lane"; "wind turbines"; "Wind"];
   ["Helios"; "sales@helios.example"];
   [" Acme Wind "; "other@acme.example"; "2 Mill Lane"; "rotor blades"; "Wind"];
   ["Helios"; "sales@helios.example"; "9 Sun Road"; "solar panels"; "Solar"]].

End Producers.

(** * Properties *)

(** ** The program on examples *)

Example strip_ex : Py.strip "  SELECT 1  " = "SELECT 1".
Proof. reflexivity. Qed.

Example upper_ex : Py.upper "select * From t_1" = "SELECT * FROM T_1".
Proof. reflexivity. Qed.

Example remove_ex : Py.remove_all "a[x]b[x]c" "[x]" = "abc".
Proof. reflexivity. Qed.

Example quote_ex : Py.quote "solar panels/a~b&c" = "solar%20panels/a~b%26c".
Proof. reflexivity. Qed.

Example find_ex : Py.find "hello [W" "[W" = Some 6.
Proof. reflexivity. Qed.

Example str_ex : Py.str_of_Z (-120) = "-120" /\ Py.str_of_Z 0 = "0".
Proof. split; reflexivity. Qed.

Example findall_ex :
  Re.findall_words "what's a wind-turbine_2 x?" = ["what"; "s"; "a"; "wind"; "turbine_2"; "x"].
Proof. reflexivity. Qed.

Example search_ex1 :
  Re.search_marker "answer. [WEB_SEARCH_SUGGESTION:   solar panels  ] tail"
  = Some {| Re.group0 := "[WEB_SEARCH_SUGGESTION:   solar panels  ]";
            Re.group1 := "solar panels" |}.
Proof. reflexivity. Qed.

Example search_ex2 :
  Re.search_marker "[WEB_SEARCH_SUGGESTION: a]b] [WEB_SEARCH_SUGGESTION: c]"
  = Some {| Re.group0 := "[WEB_SEARCH_SUGGESTION: a]"; Re.group1 := "a" |}.
Proof. reflexivity. Qed.

Example search_ex3 : Re.search_marker "[WEB_SEARCH_SUGGESTION: no end" = None.
Proof. reflexivity. Qed.

(** ** Text *)

Section TextFacts.

Lemma append_nil_r (s : string) : s ++ "" = s.
Proof. induction s as [|c s IH]; simpl; congruence. Qed.

Lemma append_assoc (a b c : string) : (a ++ b) ++ c = a ++ b ++ c.
Proof. induction a as [|x a IH]; simpl; congruence. Qed.

Lemma length_append (a b : string) :
  String.length (a ++ b) = String.length a + String.length b.
Proof. induction a as [|x a IH]; simpl; congruence. Qed.

Lemma append_snoc (a : string) (c : ascii) (b : string) :
  (a ++ String c "") ++ b = a ++ String c b.
Proof. rewrite append_assoc. reflexivity. Qed.

Lemma take_append (a b : string) : Py.take (String.length a) (a ++ b) = a.
Proof. induction a as [|x a IH]; simpl; [destruct b|]; congruence. Qed.

Lemma startswith_append (p rest : string) : Py.startswith (p ++ rest) p = true.
Proof.
  induction p as [|x p IH]; simpl; [reflexivity|].
  rewrite Ascii.eqb_refl. exact IH.
Qed.




Lemma all_chars_append (x : ascii -> bool) (a b : string) :
  Py.all_chars x (a ++ b) = Py.all_chars x a && Py.all_chars x b.
Proof.
  induction a as [|c a IH]; simpl; [reflexivity|].
  rewrite IH. apply andb_assoc.
Qed.

Lemma has_char_append (c : ascii) (a b : string) :
  Py.has_char c (a ++ b) = Py.has_char c a || Py.has_char c b.
Proof.
  induction a as [|d a IH]; simpl; [reflexivity|].
  rewrite IH. apply orb_assoc.
Qed.

(** Case analysis over the 256 characters. *)
Ltac each_char c :=
  destruct c as [[] [] [] [] [] [] [] []]; vm_compute; try reflexivity; try discriminate.





Lemma space_not_bracket (c : ascii) :
  Py.is_space c = true -> Ascii.eqb "]" c = false.
Proof. each_char c. Qed.



End TextFacts.

(** ** The pieces of a pattern *)

Section PieceFacts.
Context {R : Type}.
Implicit Types (k : string -> option R) (x : ascii -> bool).

Lemma lit_append (p rest : string) k : Re.lit p (p ++ rest) k = k rest.
Proof.
  induction p as [|a p IH]; simpl; [reflexivity|].
  rewrite Ascii.eqb_refl. exact IH.
Qed.

Lemma lit_sound (p s : string) k (r : R) :
  Re.lit p s k = Some r -> exists rest, s = p ++ rest /\ k rest = Some r.
Proof.
  revert s; induction p as [|a p IH]; intros s H; simpl in *.
  - exists s; auto.
  - destruct s as [|b s]; [discriminate|].
    destruct (Ascii.eqb a b) eqn:E; [|discriminate].
    apply Ascii.eqb_eq in E; subst b.
    destruct (IH _ H) as (rest & -> & Hk). exists rest; auto.
Qed.

Lemma lit_none (p s : string) k :
  Py.startswith s p = false -> Re.lit p s k = None.
Proof.
  revert s; induction p as [|a p IH]; intros s H; simpl in *; [discriminate|].
  destruct s as [|b s]; [reflexivity|].
  destruct (Ascii.eqb a b); simpl in H; [auto|reflexivity].
Qed.

Lemma star_greedy_sound x (s : string) k (r : R) :
  Re.star_greedy x s k = Some r ->
  exists a b, s = a ++ b /\ Py.all_chars x a = true /\ k b = Some r.
Proof.
  induction s as [|c s IH]; simpl; intros H.
  - exists "", "". auto.
  - destruct (x c) eqn:Hc.
    + destruct (Re.star_greedy x s k) as [r'|] eqn:E.
      * injection H as ->. destruct (IH eq_refl) as (a & b & -> & Ha & Hk).
        exists (String c a), b. simpl. rewrite Hc. auto.
      * exists "", (String c s). auto.
    + exists "", (String c s). auto.
Qed.

(** A greedy run that is followed by a character outside the class hands
    on what follows the run, when the pieces after it accept that. *)
Lemma star_greedy_run x (ws tail : string) k (r : R) :
  Py.all_chars x ws = true ->
  k tail = Some r ->
  match tail with String c _ => x c = false | EmptyString => True end ->
  Re.star_greedy x (ws ++ tail) k = Some r.
Proof.
  intros Hws Hk Htail. induction ws as [|c ws IH]; simpl in *.
  - destruct tail as [|c tail]; simpl; [exact Hk|].
    rewrite Htail. exact Hk.
  - apply andb_true_iff in Hws as [Hc Hws]. rewrite Hc, (IH Hws). reflexivity.
Qed.

End PieceFacts.

Section CaptureFacts.
Context {R : Type}.
Implicit Types (k : string -> string -> option R) (x : ascii -> bool).

Lemma star_lazy_sound x (s got : string) k (r : R) :
  Re.star_lazy x got s k = Some r ->
  exists a b, s = a ++ b /\ Py.all_chars x a = true /\ k (got ++ a) b = Some r.
Proof.
  revert got; induction s as [|c s IH]; intros got H; simpl in H.
  - destruct (k got "") eqn:E; [|discriminate].
    exists "", "". rewrite (append_nil_r got). injection H as <-. auto.
  - destruct (k got (String c s)) eqn:E.
    + exists "", (String c s). rewrite (append_nil_r got). injection H as <-. auto.
    + destruct (x c) eqn:Hc; [|discriminate].
      destruct (IH _ H) as (a & b & -> & Ha & Hk).
      exists (String c a), b. simpl. rewrite Hc.
      rewrite append_snoc in Hk. auto.
Qed.

(** A lazy run stops at the first place where the pieces after it accept. *)
Lemma star_lazy_first x (g tail got : string) k (r : R) :
  Py.all_chars x g = true ->
  (forall g1 g2, g = g1 ++ g2 -> g2 <> "" -> k (got ++ g1) (g2 ++ tail) = None) ->
  k (got ++ g) tail = Some r ->
  Re.star_lazy x got (g ++ tail) k = Some r.
Proof.
  revert got; induction g as [|c g IH]; intros got Hg Hnone Hk.
  - simpl. rewrite append_nil_r in Hk.
    destruct tail; simpl; rewrite Hk; reflexivity.
  - simpl in Hg. apply andb_true_iff in Hg as [Hc Hg].
    simpl. rewrite Hc.
    assert (E : k got (String c (g ++ tail)) = None).
    { specialize (Hnone "" (String c g) eq_refl).
      rewrite append_nil_r in Hnone. apply Hnone. discriminate. }
    rewrite E. apply IH; [exact Hg| |].
    + intros g1 g2 -> Hg2. rewrite append_snoc.
      apply (Hnone (String c g1) g2); [reflexivity|exact Hg2].
    + rewrite append_snoc. exact Hk.
Qed.


End CaptureFacts.

(** ** [strip] *)

Section StripFacts.

Lemma lstrip_split (s : string) :
  exists ws, s = ws ++ Py.lstrip s /\ Py.all_chars Py.is_space ws = true.
Proof.
  induction s as [|c s (ws & IH & Hws)]; simpl.
  - exists "". auto.
  - destruct (Py.is_space c) eqn:Hc.
    + exists (String c ws). simpl. rewrite Hc. split; [congruence|exact Hws].
    + exists "". auto.
Qed.

Lemma lstrip_head (s : string) :
  match Py.lstrip s with
  | String c _ => Py.is_space c = false
  | EmptyString => True
  end.
Proof.
  induction s as [|c s IH]; simpl; [exact I|].
  destruct (Py.is_space c) eqn:Hc; [exact IH|exact Hc].
Qed.

Lemma lstrip_spaces (ws tail : string) :
  Py.all_chars Py.is_space ws = true ->
  match tail with String c _ => Py.is_space c = false | EmptyString => True end ->
  Py.lstrip (ws ++ tail) = tail.
Proof.
  intros Hws Htail. induction ws as [|c ws IH]; simpl in *.
  - destruct tail as [|c tail]; simpl; [reflexivity|]. rewrite Htail. reflexivity.
  - apply andb_true_iff in Hws as [-> Hws]. auto.
Qed.

Lemma rstrip_split (s : string) :
  exists ws, s = Py.rstrip s ++ ws /\ Py.all_chars Py.is_space ws = true.
Proof.
  induction s as [|c s (ws & IH & Hws)]; simpl.
  - exists "". auto.
  - destruct (Py.rstrip s) as [|d r] eqn:E.
    + destruct (Py.is_space c) eqn:Hc.
      * exists (String c ws). simpl in *. rewrite Hc. split; [congruence|exact Hws].
      * exists ws. simpl in *. split; [congruence|exact Hws].
    + exists ws. simpl in *. split; [congruence|exact Hws].
Qed.

(** What [rstrip] keeps does not end in whitespace. *)
Lemma rstrip_tail (s g1 g2 : string) :
  Py.rstrip s = g1 ++ g2 -> g2 <> "" -> Py.all_chars Py.is_space g2 = false.
Proof.
  revert g1 g2; induction s as [|c s IH]; intros g1 g2 H Hg2; simpl in H.
  - destruct g1, g2; simpl in H; congruence.
  - destruct (Py.rstrip s) as [|d r] eqn:E.
    + destruct (Py.is_space c) eqn:Hc.
      * destruct g1, g2; simpl in H; congruence.
      * destruct g1 as [|a g1]; simpl in H.
        -- subst g2. simpl. rewrite Hc. reflexivity.
        -- injection H as _ H. destruct g1, g2; simpl in H; congruence.
    + destruct g1 as [|a g1]; simpl in H.
      * subst g2.
        change (Py.is_space c && Py.all_chars Py.is_space (String d r) = false).
        rewrite (IH "" (String d r) eq_refl); [|discriminate].
        apply andb_false_r.
      * injection H as _ H. apply (IH g1 g2); auto.
Qed.

Lemma rstrip_head (c : ascii) (s : string) :
  Py.is_space c = false -> exists r, Py.rstrip (String c s) = String c r.
Proof.
  intros Hc. simpl. destruct (Py.rstrip s); [rewrite Hc|]; eauto.
Qed.

(** [strip] cuts whitespace off both ends, and nothing else. *)
Lemma strip_split (s : string) :
  exists ws1 ws2,
    s = ws1 ++ Py.strip s ++ ws2 /\
    Py.all_chars Py.is_space ws1 = true /\
    Py.all_chars Py.is_space ws2 = true /\
    (Py.strip s = "" -> ws2 = "").
Proof.
  destruct (lstrip_split s) as (ws1 & H1 & Hws1).
  destruct (rstrip_split (Py.lstrip s)) as (ws2 & H2 & Hws2).
  exists ws1, ws2. unfold Py.strip. rewrite <- H2. repeat split; auto.
  intros E. pose proof (lstrip_head s) as Hh.
  destruct (Py.lstrip s) as [|c r] eqn:El.
  - rewrite E in H2. simpl in H2. congruence.
  - destruct (rstrip_head c r Hh) as [r' Hr]. congruence.
Qed.

Lemma strip_head (s : string) :
  match Py.strip s with
  | String c _ => Py.is_space c = false
  | EmptyString => True
  end.
Proof.
  unfold Py.strip. pose proof (lstrip_head s) as Hh.
  destruct (Py.lstrip s) as [|c r]; [exact I|].
  destruct (rstrip_head c r Hh) as [r' ->]. exact Hh.
Qed.

Lemma strip_tail (s g1 g2 : string) :
  Py.strip s = g1 ++ g2 -> g2 <> "" -> Py.all_chars Py.is_space g2 = false.
Proof. apply rstrip_tail. Qed.

Lemma strip_spaces (ws : string) :
  Py.all_chars Py.is_space ws = true -> Py.strip ws = "".
Proof.
  intros H. unfold Py.strip.
  rewrite <- (append_nil_r ws), lstrip_spaces; auto.
Qed.

Lemma has_char_strip (c : ascii) (s : string) :
  Py.has_char c s = false -> Py.has_char c (Py.strip s) = false.
Proof.
  destruct (strip_split s) as (ws1 & ws2 & E & _).
  intros H. rewrite E in H. rewrite !has_char_append in H.
  apply orb_false_iff in H as [_ H]. apply orb_false_iff in H as [H _]. exact H.
Qed.

End StripFacts.

(** ** The marker pattern *)

Section MarkerFacts.

(** [\s*\]]: leading whitespace is passed, then the bracket must follow. *)
Lemma closing_spec {R} (f : string -> option R) (s : string) :
  Re.star_greedy Py.is_space s (fun s4 => Re.lit "]" s4 f)
  = Re.lit "]" (Py.lstrip s) f.
Proof.
  induction s as [|c s IH]; [reflexivity|].
  cbn [Re.star_greedy Py.lstrip].
  destruct (Py.is_space c) eqn:Hc; [|reflexivity].
  rewrite IH. destruct (Re.lit "]" (Py.lstrip s) f); [reflexivity|].
  cbn [Re.lit]. rewrite (space_not_bracket c Hc). reflexivity.
Qed.

Lemma closing_none {R} (f : string -> option R) (g2 tail : string) :
  Py.has_char "]" g2 = false ->
  Py.all_chars Py.is_space g2 = false ->
  Re.lit "]" (Py.lstrip (g2 ++ tail)) f = None.
Proof.
  induction g2 as [|c g2 IH]; intros Hb Hs; [discriminate|].
  cbn [Py.has_char Py.all_chars] in Hb, Hs.
  apply orb_false_iff in Hb as [Hc Hb].
  cbn [append Py.lstrip].
  destruct (Py.is_space c) eqn:Hsp.
  - apply IH; auto.
  - cbn [Re.lit]. rewrite Hc. reflexivity.
Qed.

Lemma no_line_feed (g : string) :
  Py.has_char line_feed g = false -> Py.all_chars Py.is_dot g = true.
Proof.
  induction g as [|c g IH]; [reflexivity|].
  cbn [Py.has_char Py.all_chars]. intros H.
  apply orb_false_iff in H as [Hc Hg]. rewrite (IH Hg), andb_true_r.
  unfold Py.is_dot, Py.code.
  destruct (N_of_ascii c =? 10)%N eqn:E; [|reflexivity].
  apply N.eqb_eq in E.
  assert (c = line_feed) as ->
      by (unfold line_feed; rewrite <- E; symmetry; apply ascii_N_embedding).
  discriminate.
Qed.

(** The pattern at the start of a marker whose inner text has no closing
    bracket and, once trimmed, no line feed. *)
Lemma marker_here_wellformed (inner post : string) :
  Py.has_char "]" inner = false ->
  Py.has_char line_feed (Py.strip inner) = false ->
  Re.marker_here (Re.marker_literal ++ inner ++ "]" ++ post)
  = Some (Py.strip inner, post).
Proof.
  intros Hb Hnl.
  destruct (strip_split inner) as (ws1 & ws2 & E & Hws1 & Hws2 & Hempty).
  set (g := Py.strip inner) in *.
  assert (Hg : Py.has_char "]" g = false) by (apply has_char_strip; exact Hb).
  unfold Re.marker_here. rewrite lit_append.
  rewrite E at 1. rewrite !append_assoc.
  assert (Hclose : forall g' : string,
             Re.star_greedy Py.is_space (ws2 ++ String "]" post)
               (fun s4 => Re.lit "]" s4 (fun s5 => Some (g', s5)))
             = Some (g', post)).
  { intros g'. rewrite closing_spec, lstrip_spaces; auto. }
  apply star_greedy_run; [exact Hws1| |].
  - apply (star_lazy_first Py.is_dot g (ws2 ++ "]" ++ post) "").
    + apply no_line_feed. exact Hnl.
    + intros g1 g2 Hsplit Hg2. cbn [append].
      rewrite closing_spec. apply closing_none.
      * rewrite Hsplit, has_char_append in Hg.
        apply orb_false_iff in Hg as [_ Hg]. exact Hg.
      * apply (strip_tail inner g1 g2); auto.
    + cbn [append]. apply Hclose.
  - pose proof (strip_head inner) as Hh. fold g in Hh.
    destruct g as [|c g']; [|exact Hh].
    rewrite (Hempty eq_refl). reflexivity.
Qed.

Lemma marker_here_sound (s g rest : string) :
  Re.marker_here s = Some (g, rest) ->
  exists ws1 ws2,
    s = Re.marker_literal ++ ws1 ++ g ++ ws2 ++ "]" ++ rest /\
    Py.all_chars Py.is_space ws1 = true /\
    Py.all_chars Py.is_dot g = true /\
    Py.all_chars Py.is_space ws2 = true.
Proof.
  unfold Re.marker_here. intros H.
  apply lit_sound in H as (s1 & -> & H).
  apply star_greedy_sound in H as (ws1 & s2 & -> & Hws1 & H).
  apply star_lazy_sound in H as (g' & s3 & -> & Hg & H).
  apply star_greedy_sound in H as (ws2 & s4 & -> & Hws2 & H).
  apply lit_sound in H as (s5 & -> & H).
  injection H as <- <-. exists ws1, ws2. auto.
Qed.

Lemma marker_here_needs_bracket (s : string) :
  Py.has_char "]" s = false -> Re.marker_here s = None.
Proof.
  intros H. destruct (Re.marker_here s) as [[g rest]|] eqn:E; [|reflexivity].
  apply marker_here_sound in E as (ws1 & ws2 & -> & _).
  rewrite !has_char_append in H. cbn in H.
  rewrite !orb_true_r in H. discriminate.
Qed.

Lemma search_marker_needs_bracket (s : string) :
  Py.has_char "]" s = false -> Re.search_marker s = None.
Proof.
  induction s as [|c s IH]; intros H.
  - reflexivity.
  - cbn [Re.search_marker]. rewrite (marker_here_needs_bracket _ H).
    cbn [Py.has_char] in H. apply orb_false_iff in H as [_ H]. auto.
Qed.

(** The scan passes every position before the first literal. *)
Lemma search_marker_skip (pre rest : string) :
  Py.find (pre ++ rest) Re.marker_literal = Some (String.length pre) ->
  Re.search_marker (pre ++ rest) = Re.search_marker rest.
Proof.
  induction pre as [|c pre IH]; intros H; [reflexivity|].
  cbn [append Py.find String.length] in H.
  destruct (Py.startswith (String c (pre ++ rest)) Re.marker_literal) eqn:E;
    [discriminate|].
  cbn [append Re.search_marker].
  unfold Re.marker_here at 1. rewrite (lit_none _ _ _ E).
  apply IH. destruct (Py.find (pre ++ rest) Re.marker_literal); simpl in H; congruence.
Qed.


Lemma search_marker_wellformed (pre inner post : string) :
  Py.find (pre ++ Re.marker_literal ++ inner ++ "]" ++ post) Re.marker_literal
  = Some (String.length pre) ->
  Py.has_char "]" inner = false ->
  Py.has_char line_feed (Py.strip inner) = false ->
  Re.search_marker (pre ++ Re.marker_literal ++ inner ++ "]" ++ post)
  = Some {| Re.group0 := Re.marker_literal ++ inner ++ "]";
            Re.group1 := Py.strip inner |}.
Proof.
  intros Hfind Hb Hnl. rewrite (search_marker_skip _ _ Hfind).
  pose proof (marker_here_wellformed inner post Hb Hnl) as H.
  remember (Re.marker_literal ++ inner ++ "]" ++ post) as s eqn:Es.
  destruct s as [|c s].
  - discriminate.
  - cbn [Re.search_marker]. rewrite H. f_equal. f_equal.
    rewrite Es.
    replace (Re.marker_literal ++ inner ++ "]" ++ post)
      with ((Re.marker_literal ++ inner ++ "]") ++ post)
      by (rewrite !append_assoc; reflexivity).
    rewrite length_append, Nat.add_sub. apply take_append.
Qed.

End MarkerFacts.

(** ** What a computation adds to the trace *)

Section Emits.
Variable p : event -> bool.

Lemma extends_same st st' : trace st' = trace st -> extends p st st'.
Proof. intros E. exists []. rewrite app_nil_r. auto. Qed.

Lemma extends_refl st : extends p st st.
Proof. apply extends_same. reflexivity. Qed.

Lemma extends_trans st1 st2 st3 :
  extends p st1 st2 -> extends p st2 st3 -> extends p st1 st3.
Proof.
  intros (t1 & E1 & H1) (t2 & E2 & H2). exists (t1 ++ t2)%list.
  rewrite E2, E1, app_assoc, forallb_app, H1, H2. auto.
Qed.

Lemma emits_ret {A} (a : A) : emits p (ret a).
Proof. intros st. apply extends_refl. Qed.

Lemma emits_raise {A} (e : exn) : emits p (@raise A e).
Proof. intros st. apply extends_refl. Qed.

Lemma emits_lift {A} (r : result A) : emits p (lift r).
Proof. intros st. apply extends_refl. Qed.

Lemma emits_bind {A B} (m : M A) (k : A -> M B) :
  emits p m -> (forall a, emits p (k a)) -> emits p (bind m k).
Proof.
  intros Hm Hk st. unfold bind. specialize (Hm st).
  destruct (m st) as [[a|e] st1]; simpl in *; [|exact Hm].
  eapply extends_trans; [exact Hm|apply Hk].
Qed.

Lemma emits_try_except {A} (m : M A) (handler : exn -> M A) :
  emits p m -> (forall e, emits p (handler e)) -> emits p (try_except m handler).
Proof.
  intros Hm Hh st. unfold try_except. specialize (Hm st).
  destruct (m st) as [[a|e] st1]; simpl in *; [exact Hm|].
  eapply extends_trans; [exact Hm|apply Hh].
Qed.

Lemma emits_try_finally {A} (m : M A) (cleanup : M unit) :
  emits p m -> emits p cleanup -> emits p (try_finally m cleanup).
Proof.
  intros Hm Hc st. unfold try_finally. specialize (Hm st).
  destruct (m st) as [r st1]. specialize (Hc st1).
  destruct (cleanup st1) as [[u|e] st2]; simpl in *;
    eapply extends_trans; eauto.
Qed.

Lemma emits_emit (ev : event) : p ev = true -> emits p (emit ev).
Proof.
  intros H st. exists [ev]. simpl. rewrite H. auto.
Qed.

Lemma emits_set_context_data l : emits p (set_context_data l).
Proof. intros st. apply extends_same. reflexivity. Qed.

Lemma emits_get_context_data : emits p get_context_data.
Proof. intros st. apply extends_refl. Qed.

Lemma emits_append_context line : emits p (append_context line).
Proof. intros st. apply extends_same. reflexivity. Qed.

Lemma emits_set_generated_sql sql : emits p (set_generated_sql sql).
Proof. intros st. apply extends_same. reflexivity. Qed.

Lemma emits_get_generated_sql : emits p get_generated_sql.
Proof. intros st. apply extends_refl. Qed.

Lemma emits_when (b : bool) (m : M unit) : emits p m -> emits p (when b m).
Proof. intros H. destruct b; [exact H|apply emits_ret]. Qed.

Lemma emits_for_each {A} (l : list A) (body : A -> M unit) :
  (forall a, emits p (body a)) -> emits p (for_each l body).
Proof.
  intros H. induction l as [|a l IH]; simpl.
  - apply emits_ret.
  - apply emits_bind; auto.
Qed.

Lemma emits_index row i : emits p (index row i).
Proof.
  unfold index. destruct (nth_error row i); [apply emits_ret|apply emits_raise].
Qed.

Lemma emits_call_model w prompt :
  p (EvSendMessage prompt) = true -> emits p (call_model w prompt).
Proof.
  intros H. apply emits_bind; [apply emits_emit; exact H|].
  intros _. apply emits_lift.
Qed.

Lemma emits_sqlite3_connect w : p EvConnect = true -> emits p (sqlite3_connect w).
Proof.
  intros H. apply emits_bind; [apply emits_emit; exact H|].
  intros _. destruct (connect w); [apply emits_raise|apply emits_ret].
Qed.

Lemma emits_cursor_execute w sql params :
  p (EvExecute sql params) = true -> emits p (cursor_execute w sql params).
Proof.
  intros H. apply emits_bind; [apply emits_emit; exact H|].
  intros _. apply emits_lift.
Qed.

End Emits.

Create HintDb effects.
#[local] Hint Resolve emits_ret emits_raise emits_lift emits_bind emits_try_except
  emits_try_finally emits_emit emits_set_context_data emits_get_context_data
  emits_append_context emits_set_generated_sql emits_get_generated_sql
  emits_when emits_for_each emits_index emits_call_model emits_sqlite3_connect
  emits_cursor_execute : effects.

Lemma retrieve_context_backstage (w : world) (query : string) :
  emits is_backstage (retrieve_context w query).
Proof.
  unfold retrieve_context, format_row. auto 20 with effects.
Qed.

(** ** Context retrieval *)

Section RetrieveFacts.
Variables (w : world) (query : string).

Lemma retrieve_context_returns (st : state) :
  exists lines st',
    retrieve_context w query st
    = (Return (Py.join nl (lines ++ [description_line])), st') /\
    lines <> [].
Proof.
  unfold retrieve_context.
  match goal with |- context [try_except ?b ?h] => generalize b; intros body end.
  unfold bind, set_context_data, try_except, when, get_context_data,
    append_context, emit, ret.
  cbn [trace context_data generated_sql].
  destruct (body _) as [[[]|e] st2].
  - destruct (context_data st2) as [|l ls] eqn:E; cbn [List.length Nat.eqb context_data].
    + exists [no_match_line]. rewrite E. eexists. split; [reflexivity|discriminate].
    + exists (l :: ls). rewrite E. eexists. split; [reflexivity|discriminate].
  - cbn [List.length Nat.eqb context_data].
    destruct (context_data st2) as [|l ls] eqn:E; cbn [app List.length Nat.eqb context_data].
    + exists [error_line]. eexists. split; [reflexivity|discriminate].
    + exists (l :: ls ++ [error_line])%list. eexists. split; [reflexivity|discriminate].
Qed.

Lemma retrieve_context_connect_fails (e : exn) :
  connect w = Some e ->
  run (retrieve_context w query)
  = (Return (error_line ++ nl ++ description_line),
     [EvConnect; fetch_error_print e]).
Proof.
  intros H. unfold run, retrieve_context, sqlite3_connect.
  unfold bind, try_except, emit, raise, set_context_data. cbn. rewrite H. reflexivity.
Qed.

Lemma retrieve_context_no_keywords :
  filtered_keywords query = [] ->
  connect w = None ->
  run (retrieve_context w query)
  = (Return (no_match_line ++ nl ++ description_line), [EvConnect; EvClose]).
Proof.
  intros Hk Hc. unfold run, retrieve_context, sqlite3_connect.
  rewrite Hk. unfold bind, try_except, emit, raise, set_context_data. cbn. rewrite Hc.
  reflexivity.
Qed.

Lemma retrieve_context_execute_fails (e : exn) :
  connect w = None ->
  filtered_keywords query <> [] ->
  execute w (lookup_sql query) (lookup_params query) = Raise e ->
  run (retrieve_context w query)
  = (Return (error_line ++ nl ++ description_line),
     [EvConnect; EvExecute (lookup_sql query) (lookup_params query);
      fetch_error_print e]).
Proof.
  intros Hc Hk He. unfold run, retrieve_context, sqlite3_connect, cursor_execute.
  unfold lookup_sql, lookup_params in *.
  destruct (filtered_keywords query) as [|kw kws]; [congruence|].
  unfold bind, try_except, emit, raise, set_context_data, lift. cbn -[context_sql like_param].
  rewrite Hc. cbn -[context_sql like_param] in *. rewrite He.
  reflexivity.
Qed.

End RetrieveFacts.

(** ** The trace of the AI database query *)

Lemma checked_sql_valid (sql : string) :
  validate sql = Valid -> checked_sql sql = sql.
Proof.
  unfold validate, checked_sql.
  destruct (Py.startswith (Py.upper sql) "SELECT"); [reflexivity|discriminate].
Qed.

Lemma run_query_trace (w : world) (user_query : string) :
  run (run_query_in_thread w user_query)
  = (Return tt,
     EvSendMessage (sql_prompt user_query) ::
     match send_message w (sql_prompt user_query) with
     | Raise e => [EvAfter (error_callback e None)]
     | Return response_text => after_answer w response_text
     end).
Proof.
  unfold run, run_query_in_thread, after_answer, call_model, sqlite3_connect,
    cursor_execute, result_callback.
  generalize (sql_prompt user_query) as prompt. intros prompt.
  unfold bind, try_except, emit, lift, raise, set_generated_sql, get_generated_sql, ret.
  cbn [trace context_data generated_sql initial app].
  destruct (send_message w prompt) as [response_text|e].
  - destruct (validate (Py.strip response_text)) eqn:Hv; cbn [trace app].
    + rewrite (checked_sql_valid _ Hv).
      destruct (connect w) as [e|]; cbn [trace generated_sql app].
      * destruct e; reflexivity.
      * destruct (execute w (Py.strip response_text) []) as [cursor|e];
          cbn [trace generated_sql app].
        -- destruct (rows cursor); reflexivity.
        -- destruct e; reflexivity.
    + reflexivity.
  - destruct e; reflexivity.
Qed.

(** ** The trace of a chat turn *)

Lemma gemini_chat_response_run (w : world) (user_query context : string) (st : state) :
  gemini_chat_response w user_query context st
  = (Return (response_text_of w user_query context),
     {| trace := trace st ++ gemini_events w user_query context;
        context_data := context_data st;
        generated_sql := generated_sql st |}).
Proof.
  unfold gemini_chat_response, response_text_of, gemini_events, call_model.
  generalize (chat_prompt user_query context) as prompt. intros prompt.
  destruct (gemini_model w); cbn [negb].
  - unfold try_except, bind, emit, lift, ret. cbn [trace context_data generated_sql].
    destruct (send_message w prompt) as [text|e]; cbn [trace context_data generated_sql].
    + reflexivity.
    + rewrite <- app_assoc. reflexivity.
  - unfold ret. destruct st. cbn. rewrite app_nil_r. reflexivity.
Qed.

Lemma bind_return {A B} (m : M A) (k : A -> M B) (st st' : state) (a : A) :
  m st = (Return a, st') -> bind m k st = k a st'.
Proof. intros E. unfold bind. rewrite E. reflexivity. Qed.

Lemma bind_emit {B} (ev : event) (k : unit -> M B) (st : state) :
  bind (emit ev) k st
  = k tt {| trace := trace st ++ [ev];
            context_data := context_data st;
            generated_sql := generated_sql st |}.
Proof. reflexivity. Qed.

Lemma process_chat_trace (w : world) (query : string) :
  run (process_chat_response w query)
  = (Return tt,
     (events_of (retrieve_context w query)
      ++ context_print (context_of w query)
      :: gemini_events w query (context_of w query)
      ++ reply_events (reply_of w query)
      ++ [EvPackForget; EvSendButtonNormal])%list).
Proof.
  unfold reply_of, context_of, events_of, run, process_chat_response.
  destruct (retrieve_context_returns w query initial) as (lines & st1 & E & _).
  unfold try_finally, try_except.
  rewrite (bind_return _ _ _ _ _ E), E. cbn [fst snd].
  fold (context_print (Py.join nl (lines ++ [description_line]))).
  generalize (Py.join nl (lines ++ [description_line])) as context. intros context.
  rewrite bind_emit.
  rewrite (bind_return _ _ _ _ _ (gemini_chat_response_run _ _ _ _)).
  destruct (parse_reply (response_text_of w query context)) as [text|clean q];
    unfold display_message, bind, emit; cbn [trace context_data generated_sql reply_events];
    rewrite <- !app_assoc; reflexivity.
Qed.

(** ** The word pattern and the keywords *)

Section WordFacts.




















End WordFacts.

(** ** What a trace shows *)

Lemma backstage_shows_nothing (t : list event) :
  forallb is_backstage t = true -> displayed t = [] /\ opened t = [].
Proof.
  induction t as [|ev t IH]; cbn [forallb displayed opened flat_map]; [auto|].
  intros H. apply andb_true_iff in H as [Hev Ht].
  destruct (IH Ht) as [Hd Ho]. unfold displayed, opened in *. rewrite Hd, Ho.
  destruct ev; try discriminate; auto.
Qed.

Lemma emits_events_of {A} (p : event -> bool) (m : M A) :
  emits p m -> forallb p (events_of m) = true.
Proof.
  intros H. destruct (H initial) as (t & E & Ht).
  unfold events_of, run. destruct (m initial) as [r st]. cbn in *. congruence.
Qed.

(** ** The allow-list check *)




(** ** Reading the marker out of a reply *)

Section ReplyFacts.

Lemma lstrip_fixed (s : string) :
  match s with String c _ => Py.is_space c = false | EmptyString => True end ->
  Py.lstrip s = s.
Proof. destruct s as [|c s]; cbn; [reflexivity|]. intros ->. reflexivity. Qed.

Lemma rstrip_fixed (s : string) :
  (forall g1 g2, s = g1 ++ g2 -> g2 <> "" -> Py.all_chars Py.is_space g2 = false) ->
  Py.rstrip s = s.
Proof.
  induction s as [|c s IH]; intros H; [reflexivity|].
  cbn [Py.rstrip]. rewrite IH.
  - destruct s as [|d s]; [|reflexivity].
    specialize (H "" (String c "") eq_refl). cbn in H.
    rewrite andb_true_r in H. rewrite H; [reflexivity|discriminate].
  - intros g1 g2 -> Hg2. apply (H (String c g1) g2); auto.
Qed.

Lemma strip_strip (s : string) : Py.strip (Py.strip s) = Py.strip s.
Proof.
  unfold Py.strip at 1. rewrite (lstrip_fixed _ (strip_head s)).
  apply rstrip_fixed. intros g1 g2. apply strip_tail.
Qed.

Lemma parse_reply_marker (pre inner post : string) :
  let response_text := pre ++ Re.marker_literal ++ inner ++ "]" ++ post in
  Py.find response_text Re.marker_literal = Some (String.length pre) ->
  Py.has_char "]" inner = false ->
  Py.has_char line_feed (Py.strip inner) = false ->
  parse_reply response_text
  = FallbackSuggested
      (cleaned response_text (Re.marker_literal ++ inner ++ "]") (Py.strip inner))
      (Py.strip inner).
Proof.
  intros response_text Hfind Hb Hnl. unfold parse_reply, cleaned.
  subst response_text.
  rewrite (search_marker_wellformed _ _ _ Hfind Hb Hnl).
  cbn [Re.group0 Re.group1]. rewrite strip_strip. reflexivity.
Qed.


Lemma parse_reply_unclosed (pre rest : string) :
  Py.find (pre ++ rest) Re.marker_literal = Some (String.length pre) ->
  Py.has_char "]" rest = false ->
  parse_reply (pre ++ rest) = Grounded (pre ++ rest).
Proof.
  intros Hfind Hb. unfold parse_reply.
  rewrite (search_marker_skip _ _ Hfind), (search_marker_needs_bracket _ Hb).
  reflexivity.
Qed.

End ReplyFacts.

(** ** Joining the lines of a context *)

Lemma join_snoc (sep last : string) (lines : list string) :
  lines <> [] ->
  Py.join sep (lines ++ [last]) = Py.join sep lines ++ sep ++ last.
Proof.
  unfold Py.join. induction lines as [|x [|y l] IH]; intros H.
  - congruence.
  - reflexivity.
  - change (x ++ sep ++ String.concat sep ((y :: l) ++ [last])
            = (x ++ sep ++ String.concat sep (y :: l)) ++ sep ++ last).
    rewrite IH by discriminate. rewrite !append_assoc. reflexivity.
Qed.

Lemma append_not_empty (a b : string) : b <> "" -> a ++ b <> "".
Proof. destruct a; cbn; [auto|discriminate]. Qed.

(** ** What a chat turn shows *)

Lemma displayed_app (t1 t2 : list event) :
  displayed (t1 ++ t2) = (displayed t1 ++ displayed t2)%list.
Proof. apply flat_map_app. Qed.

Lemma opened_app (t1 t2 : list event) :
  opened (t1 ++ t2) = (opened t1 ++ opened t2)%list.
Proof. apply flat_map_app. Qed.

Lemma gemini_events_backstage (w : world) (user_query context : string) :
  forallb is_backstage (gemini_events w user_query context) = true.
Proof.
  unfold gemini_events. destruct (gemini_model w); [|reflexivity].
  cbn [negb]. destruct (send_message w _); reflexivity.
Qed.

(** Before the reply a chat turn works backstage, and after it only the
    loading label and the send button change. *)
Lemma process_chat_shape (w : world) (query : string) :
  exists before,
    forallb is_backstage before = true /\
    events_of (process_chat_response w query)
    = (before ++ reply_events (reply_of w query)
       ++ [EvPackForget; EvSendButtonNormal])%list.
Proof.
  exists (events_of (retrieve_context w query)
          ++ context_print (context_of w query)
          :: gemini_events w query (context_of w query))%list.
  split.
  - rewrite forallb_app.
    rewrite (emits_events_of _ _ (retrieve_context_backstage w query)).
    cbn [forallb context_print is_backstage andb].
    apply gemini_events_backstage.
  - unfold events_of at 1. rewrite process_chat_trace. cbn [snd].
    rewrite <- app_assoc. reflexivity.
Qed.

(** * The claims *)








Lemma spaces_no_bracket (ws : string) :
  Py.all_chars Py.is_space ws = true -> Py.has_char "]" ws = false.
Proof.
  induction ws as [|c ws IH]; [reflexivity|].
  cbn [Py.all_chars Py.has_char]. intros H.
  apply andb_true_iff in H as [Hc Hws].
  rewrite (space_not_bracket c Hc), (IH Hws). reflexivity.
Qed.

(** C9, as stated, fails: a marker with an empty query is a fallback with
    the empty query, not a grounded reply. *)
Lemma empty_marker_counterexample :
  let response_text := "Try the web. [WEB_SEARCH_SUGGESTION: ]" in
  parse_reply response_text = FallbackSuggested "Try the web." "" /\
  parse_reply response_text <> Grounded response_text.
Proof.
  cbv zeta. split; [reflexivity|]. intros H. vm_compute in H. discriminate H.
Qed.

(** C9, amended.  A marker that is not closed, no bracket following the
    first literal, leaves the reply [Grounded] with the raw text; a marker
    whose inner text is empty or whitespace is still a [FallbackSuggested]
    reply, with the empty query. *)
Theorem malformed_marker_reply (pre rest ws post : string) :
  (Py.find (pre ++ rest) Re.marker_literal = Some (String.length pre) ->
   Py.has_char "]" rest = false ->
   parse_reply (pre ++ rest) = Grounded (pre ++ rest)) /\
  (let response_text := pre ++ Re.marker_literal ++ ws ++ "]" ++ post in
   Py.find response_text Re.marker_literal = Some (String.length pre) ->
   Py.all_chars Py.is_space ws = true ->
   parse_reply response_text
   = FallbackSuggested
       (cleaned response_text (Re.marker_literal ++ ws ++ "]") "") "").
Proof.
  split.
  - apply parse_reply_unclosed.
  - cbv zeta. intros Hfind Hws.
    pose proof (parse_reply_marker pre ws post) as H. cbv zeta in H.
    rewrite (strip_spaces ws Hws) in H. apply H; auto using spaces_no_bracket.
Qed.

Lemma malformed_marker_reply_witness :
  parse_reply ("I don't know. " ++ "[WEB_SEARCH_SUGGESTION: wind farms")
  = Grounded "I don't know. [WEB_SEARCH_SUGGESTION: wind farms"
  /\ parse_reply ("" ++ Re.marker_literal ++ " " ++ "]" ++ "")
     = FallbackSuggested (canned_text "") "".
Proof.
  split.
  - apply (proj1 (malformed_marker_reply
                    "I don't know. " "[WEB_SEARCH_SUGGESTION: wind farms" "" ""));
      reflexivity.
  - apply (proj2 (malformed_marker_reply "" "" " " "")); reflexivity.
Defined.




(** C4, as stated, fails: without keywords the connection is still opened,
    and when that fails the context holds the error line, not the no-match
    line. *)
Lemma no_keywords_counterexample :
  filtered_keywords "what is the" = [] /\
  fst (run (retrieve_context closed_world "what is the"))
  = Return (error_line ++ nl ++ description_line) /\
  fst (run (retrieve_context closed_world "what is the"))
  <> Return (no_match_line ++ nl ++ description_line).
Proof.
  split; [reflexivity|]. split; [reflexivity|].
  intros H. vm_compute in H. discriminate H.
Qed.

(** C4, amended.  The context always has at least two lines and is not the
    empty text.  Without keywords no statement is executed, and the context
    is the no-match line and the project description when the connection
    opens, the error line and the project description when it does not. *)
Theorem context_is_never_empty (w : world) (query : string) :
  (exists lines,
      fst (run (retrieve_context w query)) = Return (Py.join nl lines) /\
      2 <= List.length lines /\
      Py.join nl lines <> "") /\
  (filtered_keywords query = [] ->
   executed (events_of (retrieve_context w query)) = [] /\
   fst (run (retrieve_context w query))
   = Return ((match connect w with
              | None => no_match_line
              | Some _ => error_line
              end) ++ nl ++ description_line)).
Proof.
  split.
  - destruct (retrieve_context_returns w query initial) as (lines & st' & E & Hne).
    exists (lines ++ [description_line])%list. unfold run. rewrite E. cbn [fst].
    split; [reflexivity|]. split.
    + rewrite length_app. cbn. destruct lines; [congruence|cbn; lia].
    + rewrite join_snoc by exact Hne.
      apply append_not_empty, append_not_empty. discriminate.
  - intros Hk. unfold events_of. destruct (connect w) as [e|] eqn:Hc.
    + rewrite (retrieve_context_connect_fails w query e Hc). auto.
    + rewrite (retrieve_context_no_keywords w query Hk Hc). auto.
Qed.

Lemma context_is_never_empty_witness :
  executed (events_of (retrieve_context (spy_world "") "what is the")) = [] /\
  fst (run (retrieve_context (spy_world "") "what is the"))
  = Return (no_match_line ++ nl ++ description_line).
Proof.
  apply (proj2 (context_is_never_empty (spy_world "") "what is the")).
  reflexivity.
Defined.

(** C7, as stated, fails: after a failed lookup the context holds the error
    line and the project description, not the error line alone. *)
Lemma store_failure_counterexample :
  fst (run (retrieve_context failing_world "wind power"))
  = Return (error_line ++ nl ++ description_line) /\
  fst (run (retrieve_context failing_world "wind power")) <> Return error_line.
Proof.
  split; [reflexivity|]. intros H. vm_compute in H. discriminate H.
Qed.

(** C7, amended.  When opening the store or executing the lookup raises,
    [retrieve_context] returns: the context is the error line followed by
    the project description, and a configured model is still asked with
    that context. *)
Theorem store_failure_is_absorbed (w : world) (query : string) (e : exn) :
  connect w = Some e \/
  (connect w = None /\ filtered_keywords query <> [] /\
   execute w (lookup_sql query) (lookup_params query) = Raise e) ->
  fst (run (retrieve_context w query))
  = Return (error_line ++ nl ++ description_line) /\
  (gemini_model w = true ->
   In (EvSendMessage (chat_prompt query (error_line ++ nl ++ description_line)))
      (events_of (process_chat_response w query))).
Proof.
  intros H.
  assert (E : fst (run (retrieve_context w query))
              = Return (error_line ++ nl ++ description_line)).
  { destruct H as [Hc|(Hc & Hk & He)].
    - rewrite (retrieve_context_connect_fails w query e Hc). reflexivity.
    - rewrite (retrieve_context_execute_fails w query e Hc Hk He). reflexivity. }
  split; [exact E|]. intros Hm.
  unfold events_of at 1. rewrite process_chat_trace. cbn [snd].
  unfold context_of. rewrite E.
  apply in_or_app. right. right. apply in_or_app. left.
  unfold gemini_events. rewrite Hm. left. reflexivity.
Qed.

Lemma store_failure_is_absorbed_witness :
  fst (run (retrieve_context failing_world "wind power"))
  = Return (error_line ++ nl ++ description_line) /\
  In (EvSendMessage (chat_prompt "wind power" (error_line ++ nl ++ description_line)))
     (events_of (process_chat_response failing_world "wind power")).
Proof.
  destruct (store_failure_is_absorbed failing_world "wind power"
                                      (SqliteError "database is locked"))
    as [Hcontext Hasked].
  - right. repeat split. discriminate.
  - split; [exact Hcontext|]. apply Hasked. reflexivity.
Defined.





(** C6, as stated, fails: on a fallback reply the chat turn itself opens the
    search address in the browser. *)
Lemma browser_opened_counterexample :
  opened (events_of (process_chat_response
                       (spy_world "I don't have that. [WEB_SEARCH_SUGGESTION: cat energy]")
                       "convert my cat to energy"))
  = ["https://www.google.com/search?q=cat%20energy"].
Proof. reflexivity. Qed.

(** C6, amended.  On a [FallbackSuggested] reply [process_chat_response]
    shows the reply with the search address as a link and then opens that
    address in a new browser tab itself, once; on a [Grounded] reply it
    opens nothing.  Nothing else in the turn reaches the window or the
    browser before the reply. *)
Theorem fallback_opens_the_search (w : world) (query : string) :
  opened (events_of (process_chat_response w query))
  = match reply_of w query with
    | FallbackSuggested _ suggested_query => [google_url suggested_query]
    | Grounded _ => []
    end /\
  exists before,
    forallb is_backstage before = true /\
    events_of (process_chat_response w query)
    = (before
       ++ match reply_of w query with
          | FallbackSuggested clean_response_text suggested_query =>
              [EvDisplayMessage "Bot" clean_response_text true
                                (Some (google_url suggested_query));
               EvOpenNewTab (google_url suggested_query)]
          | Grounded text => [EvDisplayMessage "Bot" text false None]
          end
       ++ [EvPackForget; EvSendButtonNormal])%list.
Proof.
  destruct (process_chat_shape w query) as (before & Hb & E).
  destruct (backstage_shows_nothing before Hb) as [_ Ho].
  split.
  - rewrite E, !opened_app, Ho. destruct (reply_of w query); reflexivity.
  - exists before. split; [exact Hb|]. rewrite E.
    destruct (reply_of w query); reflexivity.
Qed.

(** * Further properties *)

(** ** The search address *)

Lemma quote_char_url (c : ascii) : Py.all_chars is_url_char (Py.quote_char c) = true.
Proof. destruct c as [[] [] [] [] [] [] [] []]; vm_compute; reflexivity. Qed.

Lemma quote_url (s : string) : Py.all_chars is_url_char (Py.quote s) = true.
Proof.
  induction s as [|c s IH]; [reflexivity|].
  cbn [Py.quote]. rewrite all_chars_append, quote_char_url, IH. reflexivity.
Qed.

Lemma url_char_plain (c : ascii) :
  is_url_char c = true ->
  Ascii.eqb " " c = false /\ Ascii.eqb "&" c = false /\
  Ascii.eqb "#" c = false /\ Ascii.eqb "?" c = false /\
  Ascii.eqb "=" c = false /\ Ascii.eqb "+" c = false.
Proof.
  destruct c as [[] [] [] [] [] [] [] []]; vm_compute; intros H;
    repeat split; try reflexivity; discriminate H.
Qed.

Lemma url_chars_plain (s : string) :
  Py.all_chars is_url_char s = true ->
  Py.has_char " " s = false /\ Py.has_char "&" s = false /\
  Py.has_char "#" s = false /\ Py.has_char "?" s = false /\
  Py.has_char "=" s = false /\ Py.has_char "+" s = false.
Proof.
  induction s as [|c s IH]; cbn [Py.all_chars Py.has_char]; [auto 10|].
  intros H. apply andb_true_iff in H as [Hc Hs].
  destruct (url_char_plain c Hc) as (H1 & H2 & H3 & H4 & H5 & H6).
  destruct (IH Hs) as (I1 & I2 & I3 & I4 & I5 & I6).
  rewrite H1, H2, H3, H4, H5, H6, I1, I2, I3, I4, I5, I6. auto 10.
Qed.

(** X1.  Whatever the model answers, an address that a chat turn opens in
    the browser is the Google search address followed by the quoted query,
    which holds only letters, digits, [_.-~/] and percent escapes: no space
    and none of [&#?=+], so the query cannot add a parameter or a fragment
    to the address. *)
Theorem opened_address_is_one_query (w : world) (query url : string) :
  In url (opened (events_of (process_chat_response w query))) ->
  exists quoted,
    url = search_prefix ++ quoted /\
    Py.all_chars is_url_char quoted = true /\
    Py.has_char " " quoted = false /\ Py.has_char "&" quoted = false /\
    Py.has_char "#" quoted = false /\ Py.has_char "?" quoted = false /\
    Py.has_char "=" quoted = false /\ Py.has_char "+" quoted = false.
Proof.
  destruct (process_chat_shape w query) as (before & Hb & E).
  destruct (backstage_shows_nothing before Hb) as [_ Ho].
  rewrite E, !opened_app, Ho. intros Hin.
  destruct (reply_of w query) as [text|clean suggested_query];
    cbn in Hin; [destruct Hin|].
  destruct Hin as [<-|[]].
  exists (Py.quote suggested_query).
  split; [reflexivity|]. split; [apply quote_url|].
  apply url_chars_plain, quote_url.
Qed.

Lemma opened_address_is_one_query_witness :
  exists quoted,
    "https://www.google.com/search?q=cat%20%26%20dog%3F"
    = search_prefix ++ quoted /\
    Py.all_chars is_url_char quoted = true /\
    Py.has_char " " quoted = false /\ Py.has_char "&" quoted = false /\
    Py.has_char "#" quoted = false /\ Py.has_char "?" quoted = false /\
    Py.has_char "=" quoted = false /\ Py.has_char "+" quoted = false.
Proof.
  apply (opened_address_is_one_query
           (spy_world "No idea. [WEB_SEARCH_SUGGESTION: cat & dog?]")
           "cats and dogs").
  left. reflexivity.
Defined.

(** ** The lookup statement *)








(** ** The context of a lookup that answers *)

Lemma format_row_line (row : list sqlval) (st : state) :
  3 <= List.length row -> format_row row st = (Return (row_line row), st).
Proof.
  destruct row as [|a [|b [|c row]]]; cbn [List.length]; try lia.
  intros _. reflexivity.
Qed.

Lemma for_each_lines (body : list sqlval -> M unit) (found : list (list sqlval))
      (st : state) :
  (forall row st',
      3 <= List.length row ->
      body row st'
      = (Return tt,
         {| trace := trace st';
            context_data := context_data st' ++ [row_line row];
            generated_sql := generated_sql st' |})) ->
  Forall (fun row => 3 <= List.length row) found ->
  for_each found body st
  = (Return tt,
     {| trace := trace st;
        context_data := context_data st ++ map row_line found;
        generated_sql := generated_sql st |}).
Proof.
  intros Hbody H. revert st. induction H as [|row found Hrow _ IH]; intros st.
  - cbn. rewrite app_nil_r. destruct st; reflexivity.
  - cbn [for_each map]. unfold bind. rewrite (Hbody row st Hrow), IH.
    cbn [trace context_data generated_sql]. rewrite <- app_assoc. reflexivity.
Qed.

(** X3.  When the store opens and answers the lookup with rows of at least
    three cells, the context is the heading, one line for each row in the
    order of the store, an empty or NULL products or category cell shown as
    N/A, and the project description; when it answers with no row, the
    no-match line takes the place of the heading and the rows.  The store is
    connected to, asked once and closed. *)
Theorem context_of_found_rows (w : world) (query : string) (cursor : table) :
  connect w = None ->
  filtered_keywords query <> [] ->
  execute w (lookup_sql query) (lookup_params query) = Return cursor ->
  Forall (fun row => 3 <= List.length row) (rows cursor) ->
  run (retrieve_context w query)
  = (Return (Py.join nl (found_lines (rows cursor) ++ [description_line])),
     [EvConnect; EvExecute (lookup_sql query) (lookup_params query); EvClose]).
Proof.
  intros Hc Hk He Hrows.
  unfold run, retrieve_context, sqlite3_connect, cursor_execute.
  unfold lookup_sql, lookup_params in *.
  destruct (filtered_keywords query) as [|kw kws]; [congruence|].
  unfold bind, try_except, emit, raise, set_context_data, lift.
  cbn -[context_sql like_param for_each format_row] in *.
  rewrite Hc. cbn -[context_sql like_param for_each format_row]. rewrite He.
  destruct (rows cursor) as [|row found] eqn:Erows.
  - reflexivity.
  - cbn -[context_sql like_param for_each format_row].
    erewrite for_each_lines; [reflexivity| |exact Hrows].
    intros row0 st' Hrow0. rewrite (format_row_line row0 st' Hrow0). reflexivity.
Qed.

Lemma context_of_found_rows_witness :
  run (retrieve_context (spy_world "") "wind power")
  = (Return (header_line ++ nl ++
             "- Name: Acme Wind, Products: wind turbines, Category: Wind" ++ nl ++
             description_line),
     [EvConnect;
      EvExecute (lookup_sql "wind power") (lookup_params "wind power");
      EvClose]).
Proof.
  apply (context_of_found_rows
           (spy_world "") "wind power"
           {| description := ["name"; "products"; "category"];
              rows := [[SqlText "Acme Wind"; SqlText "wind turbines";
                        SqlText "Wind"]] |});
    try reflexivity.
  - discriminate.
  - repeat constructor.
Defined.

(** ** Closing the connection *)

Lemma retrieve_context_parts (w : world) (query : string) :
  retrieve_context w query
  = (set_context_data [] ;;
     try_except (sqlite3_connect w ;; lookup_rows w query ;; emit EvClose)
                report_lookup_error ;;
     finish_context).
Proof. reflexivity. Qed.

Lemma lookup_rows_keeps_open (w : world) (query : string) :
  emits is_not_close (lookup_rows w query).
Proof. unfold lookup_rows, format_row. auto 20 with effects. Qed.

Lemma parts_close_unless_raised (w : world) (middle : M unit) :
  emits is_not_close middle ->
  exists t,
    forallb is_not_close t = true /\
    (events_of (set_context_data [] ;;
                try_except (sqlite3_connect w ;; middle ;; emit EvClose)
                           report_lookup_error ;;
                finish_context)
     = (EvConnect :: t ++ [EvClose])%list \/
     exists e,
       events_of (set_context_data [] ;;
                  try_except (sqlite3_connect w ;; middle ;; emit EvClose)
                             report_lookup_error ;;
                  finish_context)
       = (EvConnect :: t ++ [fetch_error_print e])%list).
Proof.
  intros Hmiddle.
  unfold events_of, run, sqlite3_connect, report_lookup_error, finish_context.
  unfold bind, try_except, emit, set_context_data, get_context_data, append_context,
    when, ret, raise.
  cbn [trace context_data generated_sql initial app].
  destruct (connect w) as [e0|].
  - exists []. split; [reflexivity|]. right. exists e0. reflexivity.
  - match goal with
    | |- context [middle ?st0] =>
        destruct (Hmiddle st0) as (t & E & Ht); destruct (middle st0) as [[[]|e] st1]
    end; cbn [snd trace] in E; exists t; (split; [exact Ht|]).
    + left. cbn [trace context_data generated_sql].
      destruct (Nat.eqb (List.length (context_data st1)) 0);
        cbn [trace snd]; rewrite E; reflexivity.
    + right. exists e. cbn [trace context_data generated_sql].
      destruct (Nat.eqb _ 0); cbn [trace snd]; rewrite E; reflexivity.
Qed.


(** X5.  [run_query_in_thread] closes the connection it opened exactly
    when the statement was executed without an exception; when the
    statement raises, the connection stays open. *)
Theorem query_closes_only_after_success (w : world) (user_query : string) :
  (In EvClose (events_of (run_query_in_thread w user_query)) <->
   exists response_text cursor,
     send_message w (sql_prompt user_query) = Return response_text /\
     validate (Py.strip response_text) = Valid /\
     connect w = None /\
     execute w (Py.strip response_text) [] = Return cursor) /\
  (forall response_text e,
      send_message w (sql_prompt user_query) = Return response_text ->
      validate (Py.strip response_text) = Valid ->
      connect w = None ->
      execute w (Py.strip response_text) [] = Raise e ->
      store_events (events_of (run_query_in_thread w user_query))
      = [EvConnect; EvExecute (Py.strip response_text) []]).
Proof.
  unfold events_of. rewrite run_query_trace. cbn [snd].
  generalize (sql_prompt user_query) as prompt. intros prompt.
  destruct (send_message w prompt) as [response_text|e0].
  - unfold after_answer.
    destruct (validate (Py.strip response_text)) eqn:Hv.
    + destruct (connect w) as [e1|] eqn:Hc.
      * split.
        -- split.
           ++ cbn. intros [H|[H|[H|[H|[]]]]]; discriminate H.
           ++ intros (r & cursor & _ & _ & H & _). discriminate H.
        -- intros r e _ _ H. discriminate H.
      * destruct (execute w (Py.strip response_text) []) as [cursor|e1] eqn:He.
        -- split.
           ++ split.
              ** intros _. exists response_text, cursor. auto.
              ** intros _. cbn. auto 10.
           ++ intros r e Hr _ _ He'. injection Hr as <-. congruence.
        -- split.
           ++ split.
              ** cbn. intros [H|[H|[H|[H|[H|[]]]]]]; discriminate H.
              ** intros (r & cursor & Hr & _ & _ & He').
                 injection Hr as <-. congruence.
           ++ intros r e Hr _ _ _. injection Hr as <-. reflexivity.
    + split.
      * split.
        -- cbn. intros [H|[H|[H|[]]]]; discriminate H.
        -- intros (r & cursor & Hr & Hv' & _). injection Hr as <-. congruence.
      * intros r e Hr Hv'. injection Hr as <-. congruence.
  - split.
    + split.
      * cbn. intros [H|[H|[]]]; discriminate H.
      * intros (r & cursor & H & _). discriminate H.
    + intros r e H. discriminate H.
Qed.

Lemma query_closes_only_after_success_witness :
  store_events (events_of (run_query_in_thread
                             {| gemini_model := true;
                                send_message := fun _ => Return "SELECT nam FROM producers";
                                connect := None;
                                execute := fun _ _ => Raise (SqliteError "no such column: nam") |}
                             "names"))
  = [EvConnect; EvExecute "SELECT nam FROM producers" []].
Proof.
  apply (proj2 (query_closes_only_after_success _ "names")
               "SELECT nam FROM producers" (SqliteError "no such column: nam"));
    reflexivity.
Defined.

(** ** A chat turn without a model *)

Lemma retrieve_context_connects_first (w : world) (query : string) :
  exists rest, events_of (retrieve_context w query) = EvConnect :: rest.
Proof.
  rewrite retrieve_context_parts.
  destruct (parts_close_unless_raised w (lookup_rows w query)
                                      (lookup_rows_keeps_open w query))
    as (t & _ & [E|[e E]]); rewrite E; eauto.
Qed.

(** X6.  When no model is configured, a chat turn still looks the store
    up first, sends nothing to the model, opens nothing in the browser and
    shows the one message that the chatbot is unavailable. *)
Theorem chat_without_model (w : world) (query : string) :
  gemini_model w = false ->
  events_of (process_chat_response w query)
  = (events_of (retrieve_context w query)
     ++ [context_print (context_of w query);
         EvDisplayMessage "Bot" unavailable_text false None;
         EvPackForget; EvSendButtonNormal])%list /\
  (exists rest, events_of (process_chat_response w query) = EvConnect :: rest) /\
  (forall prompt, ~ In (EvSendMessage prompt) (events_of (process_chat_response w query))).
Proof.
  intros Hm.
  assert (E : events_of (process_chat_response w query)
              = (events_of (retrieve_context w query)
                 ++ [context_print (context_of w query);
                     EvDisplayMessage "Bot" unavailable_text false None;
                     EvPackForget; EvSendButtonNormal])%list).
  { unfold events_of at 1. rewrite process_chat_trace. cbn [snd].
    unfold reply_of, response_text_of, gemini_events. rewrite Hm. reflexivity. }
  split; [exact E|]. split.
  - destruct (retrieve_context_connects_first w query) as [rest Hrest].
    rewrite E, Hrest. eexists. reflexivity.
  - intros prompt Hin. rewrite E in Hin. apply in_app_or in Hin as [Hin|Hin].
    + assert (Hno : forallb (fun ev => match ev with
                                       | EvSendMessage _ => false
                                       | _ => true
                                       end)
                            (events_of (retrieve_context w query)) = true).
      { apply emits_events_of. unfold retrieve_context, format_row.
        auto 20 with effects. }
      rewrite forallb_forall in Hno. specialize (Hno _ Hin). discriminate Hno.
    + cbn in Hin. unfold context_print in Hin.
      destruct Hin as [H|[H|[H|[H|[]]]]]; discriminate H.
Qed.

Lemma chat_without_model_witness :
  events_of (process_chat_response unconfigured_world "wind power")
  = (events_of (retrieve_context unconfigured_world "wind power")
     ++ [context_print (context_of unconfigured_world "wind power");
         EvDisplayMessage "Bot" unavailable_text false None;
         EvPackForget; EvSendButtonNormal])%list.
Proof.
  apply (proj1 (chat_without_model unconfigured_world "wind power" eq_refl)).
Defined.

(** ** The instructed fallback sentence *)

Lemma remove_from_skip (old u rest : string) :
  Py.remove_from (String.length u) old (u ++ rest) = Py.remove_from 0 old rest.
Proof.
  induction u as [|c u IH]; [reflexivity|].
  cbn [String.length append Py.remove_from]. exact IH.
Qed.

(** [replace] passes a text that cannot hold the start of [old]. *)
Lemma remove_from_first (c : ascii) (old' pre post : string) :
  Py.has_char c pre = false ->
  Py.remove_from 0 (String c old') (pre ++ String c old' ++ post)
  = pre ++ Py.remove_from 0 (String c old') post.
Proof.
  intros Hpre. induction pre as [|d pre IH].
  - cbn [append Py.remove_from].
    change (String c (old' ++ post)) with (String c old' ++ post).
    rewrite startswith_append. cbn [String.length Nat.sub].
    rewrite Nat.sub_0_r. apply remove_from_skip.
  - cbn [Py.has_char] in Hpre. apply orb_false_iff in Hpre as [Hd Hpre].
    change ((String d pre) ++ String c old' ++ post)
      with (String d (pre ++ String c old' ++ post)).
    cbn [Py.remove_from Py.startswith]. rewrite Hd. cbn [andb].
    rewrite (IH Hpre). reflexivity.
Qed.

Lemma instructed_reply_parsed (user_query : string) :
  Py.has_char "]" user_query = false ->
  Py.has_char line_feed user_query = false ->
  parse_reply (instructed_reply user_query)
  = FallbackSuggested instructed_sentence
                      (Py.strip (user_query ++ " global energy")).
Proof.
  intros Hb Hnl.
  set (pre := instructed_sentence ++ " ").
  set (inner := " " ++ user_query ++ " global energy").
  assert (E : instructed_reply user_query
              = pre ++ Re.marker_literal ++ inner ++ "]" ++ "").
  { unfold instructed_reply, pre, inner, instructed_sentence, Re.marker_literal.
    cbn. rewrite append_assoc. reflexivity. }
  assert (Hinner : Py.strip inner = Py.strip (user_query ++ " global energy"))
    by reflexivity.
  rewrite E.
  pose proof (parse_reply_marker pre inner "") as H. cbv zeta in H.
  rewrite H; clear H.
  - rewrite Hinner. f_equal. unfold cleaned.
    assert (Hclean : Py.remove_all (pre ++ Re.marker_literal ++ inner ++ "]" ++ "")
                                   (Re.marker_literal ++ inner ++ "]")
                     = pre).
    { change (Re.marker_literal ++ inner ++ "]")
        with (String "[" ("WEB_SEARCH_SUGGESTION:" ++ inner ++ "]")).
      cbn [Py.remove_all].
      replace (pre ++ Re.marker_literal ++ inner ++ "]" ++ "")
        with (pre ++ String "[" ("WEB_SEARCH_SUGGESTION:" ++ inner ++ "]") ++ "").
      - rewrite remove_from_first by reflexivity. apply append_nil_r.
      - f_equal. change Re.marker_literal with (String "[" "WEB_SEARCH_SUGGESTION:").
        cbn [append]. rewrite !append_assoc. reflexivity. }
    rewrite Hclean. reflexivity.
  - unfold pre, instructed_sentence. vm_compute. reflexivity.
  - unfold inner. rewrite !has_char_append, Hb. reflexivity.
  - apply has_char_strip. unfold inner. rewrite !has_char_append, Hnl. reflexivity.
Qed.

(** X7.  The sentence that the prompt tells the model to use when the
    context lacks the answer is read back as the fallback it stands for:
    for a question without a closing bracket and a line feed, the reply is
    [FallbackSuggested] with the sentence as display text and the trimmed
    question followed by "global energy" as query, and a chat turn whose
    model answers so shows the sentence and opens the search for that
    query. *)
Theorem instructed_fallback_is_read_back (w : world) (user_query : string) :
  Py.has_char "]" user_query = false ->
  Py.has_char line_feed user_query = false ->
  (forall context, infix (instructed_reply user_query) (chat_prompt user_query context)) /\
  parse_reply (instructed_reply user_query)
  = FallbackSuggested instructed_sentence
                      (Py.strip (user_query ++ " global energy")) /\
  (gemini_model w = true ->
   send_message w (chat_prompt user_query (context_of w user_query))
   = Return (instructed_reply user_query) ->
   displayed (events_of (process_chat_response w user_query)) = [instructed_sentence] /\
   opened (events_of (process_chat_response w user_query))
   = [google_url (Py.strip (user_query ++ " global energy"))]).
Proof.
  intros Hb Hnl. split; [|split].
  - intros context.
    exists ("You are a helpful assistant providing information about global energy data. " ++
            "Answer the following question concisely based ONLY on the provided context about producers. " ++
            "If the answer is not available in the context, respond with: '"),
           ("' Otherwise, provide the answer directly from the context. " ++
            nl ++ nl ++ "Context:" ++ nl ++ context ++ nl ++ nl ++ "Question: " ++ user_query).
    unfold chat_prompt, instructed_reply, instructed_sentence.
    cbn. rewrite !append_assoc. reflexivity.
  - apply instructed_reply_parsed; assumption.
  - intros Hm Hsend.
    destruct (process_chat_shape w user_query) as (before & Hbefore & E).
    destruct (backstage_shows_nothing before Hbefore) as [Hd Ho].
    assert (Hreply : reply_of w user_query
                     = FallbackSuggested instructed_sentence
                         (Py.strip (user_query ++ " global energy"))).
    { unfold reply_of, response_text_of. rewrite Hm, Hsend. cbn [negb].
      apply instructed_reply_parsed; assumption. }
    rewrite E, Hreply, !displayed_app, !opened_app, Hd, Ho. split; reflexivity.
Qed.

Lemma instructed_fallback_is_read_back_witness :
  parse_reply (instructed_reply "who makes tidal turbines")
  = FallbackSuggested instructed_sentence "who makes tidal turbines global energy" /\
  opened (events_of (process_chat_response
                       (spy_world (instructed_reply "who makes tidal turbines"))
                       "who makes tidal turbines"))
  = [google_url "who makes tidal turbines global energy"].
Proof.
  destruct (instructed_fallback_is_read_back
              (spy_world (instructed_reply "who makes tidal turbines"))
              "who makes tidal turbines" eq_refl eq_refl)
    as (_ & Hparse & Hturn).
  split; [exact Hparse|].
  apply (Hturn eq_refl eq_refl).
Defined.

(** ** The producers table: import *)

Section ImportFacts.
Import Producers.

Lemma producer_exists_with_rows (name : string) (c : connection) (added : list producer) :
  producer_exists name (with_rows c added)
  = producer_exists name c || existsb (fun p => p_name p =? name) added.
Proof. unfold producer_exists, with_rows; simpl. apply existsb_app. Qed.

Lemma with_rows_nil (c : connection) : with_rows c [] = c.
Proof.
  destruct c as [[ps s] sv]. unfold with_rows; simpl.
  rewrite app_nil_r, Z.add_0_r. reflexivity.
Qed.

Lemma with_rows_cons (c : connection) (p : producer) (added : list producer) :
  with_rows (with_rows c [p]) added = with_rows c (p :: added).
Proof.
  unfold with_rows; simpl. rewrite <- app_assoc. simpl.
  do 2 f_equal. lia.
Qed.

Lemma insert_fresh (name contact address products category : string) (c : connection) :
  producer_exists name c = false ->
  insert_producer name contact address products category c
  = Return (with_rows c [{| p_id := sequence (now c) + 1;
                            p_name := name;
                            p_contact := contact;
                            p_address := address;
                            p_products := products;
                            p_category := category |}]).
Proof. intros H. unfold insert_producer. rewrite H. reflexivity. Qed.

Lemma filter_split_length {A} (f : A -> bool) (l : list A) :
  List.length (filter f l) + List.length (filter (fun x => negb (f x)) l)
  = List.length l.
Proof.
  induction l as [|x l IH]; simpl; [reflexivity|].
  destruct (f x); simpl; lia.
Qed.

(** The loop never raises: it asks [producer_exists] before each INSERT.
    What it adds are first occurrences of names the table did not have. *)
Lemma import_rows_spec (cols : columns) (rows : list (list string)) :
  forall (c : connection) (n : counters),
  exists n' added,
    import_rows cols rows c n = (Return n', with_rows c added) /\
    imported_count n' = imported_count n + List.length added /\
    skipped_duplicates n' + List.length added
    = skipped_duplicates n + List.length (filter (well_formed cols) rows) /\
    skipped_malformed n'
    = skipped_malformed n + List.length (filter (malformed cols) rows) /\
    Forall (fun p => exists row,
                In row rows /\ well_formed cols row = true /\ from_row cols row p)
           added /\
    (forall row, In row rows -> well_formed cols row = true ->
                 producer_exists (cell row (name_idx cols)) (with_rows c added) = true) /\
    NoDup (map p_name added) /\
    Forall (fun p => producer_exists (p_name p) c = false) added /\
    map p_id added
    = map (fun i => (sequence (now c) + Z.of_nat i)%Z) (seq 1 (List.length added)).
Proof.
  induction rows as [|row rest IH]; intros c n.
  - exists n, []. rewrite with_rows_nil. simpl.
    repeat split; try lia; try constructor; try (intros ? []).
  - cbn [import_rows filter]. unfold malformed at 1.
    fold (well_formed cols row).
    destruct (well_formed cols row) eqn:Hwf; cbn [negb].
    + destruct (producer_exists (cell row (name_idx cols)) c) eqn:Hex.
      * destruct (IH c {| imported_count := imported_count n;
                          skipped_duplicates := skipped_duplicates n + 1;
                          skipped_malformed := skipped_malformed n |})
          as (n' & added & E & Hi & Hd & Hm & Hfrom & Hcov & Hnd & Hnew & Hid).
        exists n', added. simpl in Hi, Hd, Hm.
        split; [exact E|]. split; [exact Hi|]. split; [simpl; lia|].
        split; [exact Hm|]. split.
        { eapply Forall_impl; [|exact Hfrom].
          intros p (r & Hin & Hr). exists r. split; [right; exact Hin|exact Hr]. }
        split.
        { intros r [<-|Hin] Hr; [|auto].
          rewrite producer_exists_with_rows, Hex. reflexivity. }
        auto.
      * rewrite (insert_fresh _ _ _ _ _ _ Hex).
        set (p := {| p_id := (sequence (now c) + 1)%Z;
                     p_name := cell row (name_idx cols);
                     p_contact := cell row (contact_idx cols);
                     p_address := cell row (address_idx cols);
                     p_products := cell row (products_idx cols);
                     p_category := cell row (category_idx cols) |}).
        destruct (IH (with_rows c [p])
                     {| imported_count := imported_count n + 1;
                        skipped_duplicates := skipped_duplicates n;
                        skipped_malformed := skipped_malformed n |})
          as (n' & added & E & Hi & Hd & Hm & Hfrom & Hcov & Hnd & Hnew & Hid).
        rewrite with_rows_cons in E, Hcov.
        exists n', (p :: added). simpl in Hi, Hd, Hm.
        split; [exact E|]. split; [simpl; lia|]. split; [simpl; lia|].
        split; [exact Hm|]. split.
        { constructor.
          - exists row. split; [left; reflexivity|]. split; [exact Hwf|].
            repeat split.
          - eapply Forall_impl; [|exact Hfrom].
            intros q (r & Hin & Hr). exists r. split; [right; exact Hin|exact Hr]. }
        split.
        { intros r [<-|Hin] Hr; [|auto].
          rewrite producer_exists_with_rows. simpl.
          rewrite String.eqb_refl, orb_true_r. reflexivity. }
        split.
        { simpl. constructor; [|exact Hnd].
          intros Hin. apply in_map_iff in Hin as (q & Hq & Hin).
          rewrite Forall_forall in Hnew. specialize (Hnew q Hin).
          rewrite producer_exists_with_rows in Hnew.
          apply orb_false_iff in Hnew as [_ Hnew]. simpl in Hnew.
          rewrite Hq, String.eqb_refl in Hnew. discriminate. }
        split.
        { constructor; [exact Hex|].
          eapply Forall_impl; [|exact Hnew]. intros q Hq. cbv beta in Hq.
          rewrite producer_exists_with_rows in Hq.
          apply orb_false_iff in Hq as [Hq _]. exact Hq. }
        cbn [map List.length seq]. apply (f_equal2 cons); [simpl; lia|].
        rewrite Hid, <- (seq_shift (List.length added) 1), map_map. apply map_ext.
        intros i. simpl. lia.
    + destruct (IH c {| imported_count := imported_count n;
                        skipped_duplicates := skipped_duplicates n;
                        skipped_malformed := skipped_malformed n + 1 |})
        as (n' & added & E & Hi & Hd & Hm & Hfrom & Hcov & Hnd & Hnew & Hid).
      exists n', added. simpl in Hi, Hd, Hm.
      split; [exact E|]. split; [exact Hi|]. split; [exact Hd|].
      split; [simpl; lia|]. split.
      { eapply Forall_impl; [|exact Hfrom].
        intros p (r & Hin & Hr). exists r. split; [right; exact Hin|exact Hr]. }
      split.
      { intros r [<-|Hin] Hr; [congruence|auto]. }
      auto.
Qed.

(** Rows whose names the table has are all counted as duplicates. *)
Lemma import_rows_all_known (cols : columns) (rows : list (list string)) :
  forall (c : connection) (n : counters),
  (forall row, In row rows -> well_formed cols row = true ->
               producer_exists (cell row (name_idx cols)) c = true) ->
  import_rows cols rows c n
  = (Return {| imported_count := imported_count n;
               skipped_duplicates :=
                 skipped_duplicates n + List.length (filter (well_formed cols) rows);
               skipped_malformed :=
                 skipped_malformed n + List.length (filter (malformed cols) rows) |},
     c).
Proof.
  induction rows as [|row rest IH]; intros c n Hknown.
  - simpl. rewrite !Nat.add_0_r. destruct n; reflexivity.
  - cbn [import_rows filter]. unfold malformed at 1.
    fold (well_formed cols row).
    destruct (well_formed cols row) eqn:Hwf; cbn [negb].
    + rewrite (Hknown row (or_introl eq_refl) Hwf).
      rewrite IH by (intros r Hin; apply Hknown; right; exact Hin).
      apply (f_equal2 pair); [|reflexivity]. apply f_equal.
      f_equal; simpl; lia.
    + rewrite IH by (intros r Hin; apply Hknown; right; exact Hin).
      apply (f_equal2 pair); [|reflexivity]. apply f_equal.
      f_equal; simpl; lia.
Qed.

Lemma supported_guards (filepath : string) :
  supported filepath = true ->
  (filepath =? "") = false /\
  negb (Str.endswith (Py.lower filepath) ".csv"
        || Str.endswith (Py.lower filepath) ".txt") = false.
Proof.
  unfold supported. intros H. apply andb_true_iff in H as [H1 H2].
  apply negb_true_iff in H1. rewrite H1, H2. auto.
Qed.

(** The header: [header_map.get] finds the last column of that name. *)
Lemma column_from_spec (key : string) (header : list string) :
  forall i,
  match column_from i header key with
  | None => forallb (fun col => negb (is_called key col)) header = true
  | Some j =>
      exists k col,
        j = i + k /\ nth_error header k = Some col /\ is_called key col = true /\
        forallb (fun col => negb (is_called key col)) (skipn (S k) header) = true
  end.
Proof.
  induction header as [|col rest IH]; intros i; simpl; [reflexivity|].
  specialize (IH (S i)).
  destruct (column_from (S i) rest key) as [j|].
  - destruct IH as (k & col' & -> & Hnth & Hc & Hlater).
    exists (S k), col'. simpl. repeat split; auto; lia.
  - fold (is_called key col). destruct (is_called key col) eqn:Hc.
    + exists 0, col. simpl. rewrite Nat.add_0_r. auto.
    + simpl. exact IH.
Qed.

Lemma find_columns_none (header : list string) (key : string) :
  In key five_columns ->
  forallb (fun col => negb (is_called key col)) header = true ->
  find_columns header = None.
Proof.
  intros Hkey Hno.
  assert (column header key = None) as E.
  { unfold column. pose proof (column_from_spec key header 0) as H.
    destruct (column_from 0 header key) as [j|]; [|reflexivity].
    destruct H as (k & col & _ & Hnth & Hc & _).
    rewrite forallb_forall in Hno.
    apply nth_error_In in Hnth. apply Hno in Hnth. rewrite Hc in Hnth. discriminate. }
  unfold find_columns.
  destruct Hkey as [<-|[<-|[<-|[<-|[<-|[]]]]]]; rewrite E;
    repeat match goal with |- context [match ?x with _ => _ end] => destruct x end;
    reflexivity.
Qed.

End ImportFacts.

Section ImportProperties.
Import Producers.





(** X10. When the file cannot be opened, is empty, or its reader raises
    after any number of rows, the import is undone as a whole: the
    connection is rolled back to the last commit, so no row read before
    the failure stays, and one Import Error box shows the exception. *)
Theorem failed_import_rolls_back
        (filepath : string) (header : list string) (rows : list (list string))
        (cols : columns) (e : exn) (a : app) :
  supported filepath = true ->
  find_columns header = Some cols ->
  let undone := {| db := rollback (db a); ui := (ui a ++ [import_error e])%list |} in
  import_producers_from_file filepath (Reads (header :: rows) (Some e)) a = undone /\
  import_producers_from_file filepath (CannotOpen e) a = undone /\
  import_producers_from_file filepath (Reads [] (Some e)) a = undone /\
  now (db undone) = saved (db a) /\ saved (db undone) = saved (db a).
Proof.
  intros Hpath Hcols undone.
  destruct (supported_guards _ Hpath) as [Hne Hext].
  destruct (import_rows_spec cols rows (db a) no_counts) as (n & added & E & _).
  unfold import_producers_from_file. rewrite Hne, Hext, Hcols, E.
  repeat split.
Qed.

Lemma failed_import_rolls_back_witness :
  import_producers_from_file "producers.csv"
    (Reads (sample_header :: sample_rows) (Some (OtherError "line contains NUL")))
    fresh_app
  = {| db := empty_connection;
       ui := [import_error (OtherError "line contains NUL")] |}.
Proof.
  apply (proj1 (failed_import_rolls_back
                  "producers.csv" sample_header sample_rows sample_columns
                  (OtherError "line contains NUL") fresh_app eq_refl eq_refl)).
Defined.

(** X11. A header that lacks one of the five column names (compared in
    lower case, blanks around the name dropped) stops the import before
    any data row is read: the session is neither changed, committed nor
    rolled back, and the one box shown is the header error, whatever the
    rest of the file holds. *)
Theorem header_needs_all_five_columns
        (filepath : string) (header : list string) (rows : list (list string))
        (failure : option exn) (key : string) (a : app) :
  supported filepath = true ->
  In key five_columns ->
  forallb (fun col => negb (is_called key col)) header = true ->
  import_producers_from_file filepath (Reads (header :: rows) failure) a
  = {| db := db a; ui := (ui a ++ [header_error])%list |}.
Proof.
  intros Hpath Hkey Hno.
  destruct (supported_guards _ Hpath) as [Hne Hext].
  unfold import_producers_from_file.
  rewrite Hne, Hext, (find_columns_none header key Hkey Hno). reflexivity.
Qed.

Lemma header_needs_all_five_columns_witness :
  import_producers_from_file "producers.txt"
    (Reads (["Name"; "Contact"; "Address"; "Product"; "Category"] :: sample_rows)
           (Some (OtherError "line contains NUL")))
    fresh_app
  = {| db := db fresh_app; ui := (ui fresh_app ++ [header_error])%list |}.
Proof.
  apply (header_needs_all_five_columns
           "producers.txt" ["Name"; "Contact"; "Address"; "Product"; "Category"]
           sample_rows (Some (OtherError "line contains NUL")) "products" fresh_app).
  - reflexivity.
  - simpl. auto.
  - reflexivity.
Defined.

(** X12. When the header is accepted, each of the five columns is read at
    the position of the last header cell that carries its name (in any
    case, blanks around it dropped), and a data row as long as the header
    is never counted as malformed. *)
Theorem columns_are_found_by_name (header : list string) (cols : columns) :
  find_columns header = Some cols ->
  Forall (fun '(key, idx) =>
            exists col,
              nth_error header idx = Some col /\ is_called key col = true /\
              forallb (fun col' => negb (is_called key col'))
                      (skipn (S idx) header) = true)
         [("name", name_idx cols); ("contact", contact_idx cols);
          ("address", address_idx cols); ("products", products_idx cols);
          ("category", category_idx cols)] /\
  forall row, List.length row = List.length header -> well_formed cols row = true.
Proof.
  intros H. unfold find_columns, column in H.
  pose proof (column_from_spec "name" header 0) as Hn.
  pose proof (column_from_spec "contact" header 0) as Hc.
  pose proof (column_from_spec "address" header 0) as Ha.
  pose proof (column_from_spec "products" header 0) as Hp.
  pose proof (column_from_spec "category" header 0) as Hg.
  destruct (column_from 0 header "name") as [n|]; [|discriminate].
  destruct (column_from 0 header "contact") as [c|]; [|discriminate].
  destruct (column_from 0 header "address") as [ad|]; [|discriminate].
  destruct (column_from 0 header "products") as [p|]; [|discriminate].
  destruct (column_from 0 header "category") as [g|]; [|discriminate].
  injection H as <-. simpl.
  destruct Hn as (kn & coln & -> & Hn1 & Hn2 & Hn3).
  destruct Hc as (kc & colc & -> & Hc1 & Hc2 & Hc3).
  destruct Ha as (ka & cola & -> & Ha1 & Ha2 & Ha3).
  destruct Hp as (kp & colp & -> & Hp1 & Hp2 & Hp3).
  destruct Hg as (kg & colg & -> & Hg1 & Hg2 & Hg3).
  simpl. split.
  - repeat constructor; eauto.
  - intros row Hlen. unfold well_formed, max_idx. simpl.
    apply Nat.ltb_lt. rewrite Hlen.
    pose proof (proj1 (nth_error_Some header kn)) as B1.
    pose proof (proj1 (nth_error_Some header kc)) as B2.
    pose proof (proj1 (nth_error_Some header ka)) as B3.
    pose proof (proj1 (nth_error_Some header kp)) as B4.
    pose proof (proj1 (nth_error_Some header kg)) as B5.
    rewrite Hn1 in B1. rewrite Hc1 in B2. rewrite Ha1 in B3.
    rewrite Hp1 in B4. rewrite Hg1 in B5.
    assert (kn < List.length header) by (apply B1; discriminate).
    assert (kc < List.length header) by (apply B2; discriminate).
    assert (ka < List.length header) by (apply B3; discriminate).
    assert (kp < List.length header) by (apply B4; discriminate).
    assert (kg < List.length header) by (apply B5; discriminate).
    lia.
Qed.

Lemma columns_are_found_by_name_witness :
  well_formed {| name_idx := 5; contact_idx := 1; address_idx := 2;
                 products_idx := 3; category_idx := 4 |}
              ["x"; "c"; "a"; "p"; "g"; "n"] = true.
Proof.
  apply (proj2 (columns_are_found_by_name
                  ["name"; "Contact"; "Address"; "Products"; "Category"; " NAME "]
                  {| name_idx := 5; contact_idx := 1; address_idx := 2;
                     products_idx := 3; category_idx := 4 |} eq_refl));
    reflexivity.
Defined.

End ImportProperties.

(** ** The producers table: adding one producer *)

Section AddFacts.
Import Producers.

Lemma remove_all_char (c : ascii) (s : string) :
  Py.has_char c (Py.remove_all s (String c "")) = false.
Proof.
  unfold Py.remove_all. induction s as [|d s IH]; simpl; [reflexivity|].
  destruct (Ascii.eqb c d) eqn:E; simpl; [exact IH|].
  rewrite E. exact IH.
Qed.

Lemma split_from_nonempty (sep s : string) :
  forall skip cur, Str.split_from skip sep cur s <> [].
Proof.
  induction s as [|c s IH]; intros skip cur; simpl; [discriminate|].
  destruct skip; [|apply IH].
  destruct (Py.startswith (String c s) sep); [discriminate|apply IH].
Qed.

(** A text that holds the separator splits into two pieces at least. *)
Lemma split_finds (sep s : string) :
  Py.startswith "" sep = false ->
  forall cur, Str.contains s sep = true ->
  2 <= List.length (Str.split_from 0 sep cur s).
Proof.
  intros Hsep. unfold Str.contains.
  induction s as [|c s IH]; intros cur H.
  - cbn [Py.find] in H. rewrite Hsep in H. discriminate.
  - cbn [Py.find Str.split_from] in *.
    destruct (Py.startswith (String c s) sep).
    + pose proof (split_from_nonempty sep s (String.length sep - 1) "") as Hne.
      destruct (Str.split_from (String.length sep - 1) sep "" s); [congruence|].
      simpl. lia.
    + apply IH. destruct (Py.find s sep); [reflexivity|discriminate].
Qed.

Lemma item_in_range (xs : list string) (i : nat) :
  i < List.length xs -> exists x, item xs i = Return x.
Proof.
  intros H. unfold item. apply nth_error_Some in H.
  destruct (nth_error xs i); [eauto|congruence].
Qed.

Lemma parse_suggestion_returns (text : string) :
  exists category products,
    parse_suggestion text = Return (category, products) /\
    Py.has_char "," category = false /\
    Py.strip category = category /\
    Py.strip products = products /\
    (Str.contains text "Category:" && Str.contains text "Products:" = false ->
     category = "Unknown" /\ products = "None").
Proof.
  unfold parse_suggestion.
  destruct (Str.contains text "Category:") eqn:Hc;
    [|exists "Unknown", "None"; repeat split; reflexivity].
  destruct (Str.contains text "Products:") eqn:Hp;
    [|exists "Unknown", "None"; repeat split; reflexivity].
  cbn [andb].
  pose proof (split_finds "Category:" text eq_refl "" Hc) as Lc.
  pose proof (split_finds "Products:" text eq_refl "" Hp) as Lp.
  fold (Str.split text "Category:") in Lc. fold (Str.split text "Products:") in Lp.
  destruct (1 <? List.length (Str.split text "Category:"))%nat eqn:Hlen;
    [|apply Nat.ltb_ge in Hlen; lia].
  destruct (item_in_range (Str.split text "Category:") 1) as (x & ->); [lia|].
  destruct (item_in_range (Str.split x "Products:") 0) as (y & ->).
  { pose proof (split_from_nonempty "Products:" x 0 "") as Hne.
    unfold Str.split. destruct (Str.split_from 0 "Products:" "" x); [congruence|].
    simpl. lia. }
  destruct (item_in_range (Str.split text "Products:") 1) as (z & ->); [lia|].
  eexists _, _. split; [reflexivity|].
  split; [apply has_char_strip, remove_all_char|].
  split; [apply strip_strip|]. split; [apply strip_strip|]. discriminate.
Qed.

Lemma suggest_spec (w : world) (answer : bool)
      (name contact address products category : string) (a : app) :
  exists products' category' news,
    suggest w answer name contact address products category a
    = ((products', category'), {| db := db a; ui := (ui a ++ news)%list |}) /\
    (products <> "" -> products' = products) /\
    (category <> "" -> category' = category) /\
    (answer = false \/ gemini_model w = false ->
     products' = products /\ category' = category) /\
    (forall e, send_message w (ai_prompt name contact address) = Raise e ->
               products' = products /\ category' = category) /\
    (forall title message, In (BoxWarning title message) news ->
       exists e, send_message w (ai_prompt name contact address) = Raise e /\
                 message = "Failed to get AI suggestions: " ++ str_of_exn e) /\
    (products' = products \/
     products' <> "None" /\ Py.strip products' = products') /\
    (category' = category \/
     category' <> "Unknown" /\ Py.strip category' = category' /\
     Py.has_char "," category' = false) /\
    (products' <> products \/ category' <> category ->
     exists question, In (BoxAskYesNo "AI Suggestion" question) news).
Proof.
  destruct a as [d u]. unfold suggest. cbn [db ui].
  destruct (gemini_model w && ((category =? "") || (products =? ""))) eqn:Hguard.
  2:{ exists products, category, []. rewrite app_nil_r.
      split; [reflexivity|]. repeat split; auto; try tauto.
      intros ? ? []. }
  apply andb_true_iff in Hguard as [Hmodel Hempty].
  destruct (send_message w (ai_prompt name contact address)) as [text|e] eqn:Hsend.
  2:{ exists products, category,
        [ModelAsked (ai_prompt name contact address);
         BoxWarning "AI Suggestion Error"
                    ("Failed to get AI suggestions: " ++ str_of_exn e)].
      split.
      { unfold suggestion_failed, show. cbn [db ui].
        rewrite <- app_assoc. reflexivity. }
      repeat split; auto; try tauto.
      intros title message [H|[H|[]]]; [discriminate|].
      injection H as _ <-. exists e. auto. }
  destruct (parse_suggestion_returns (Py.strip text))
    as (c & p & -> & Hcomma & Hc & Hp & _).
  destruct (negb (c =? "Unknown") || negb (p =? "None")) eqn:Hcond.
  2:{ exists products, category,
        [ModelAsked (ai_prompt name contact address);
         Printed ("AI Suggestion: " ++ Py.strip text)].
      split.
      { unfold show. cbn [db ui]. rewrite <- app_assoc. reflexivity. }
      repeat split; auto; try tauto; try discriminate.
      intros title message [H|[H|[]]]; discriminate. }
  destruct answer.
  2:{ exists products, category,
        [ModelAsked (ai_prompt name contact address);
         Printed ("AI Suggestion: " ++ Py.strip text);
         BoxAskYesNo "AI Suggestion" (suggestion_question c p)].
      split.
      { unfold show. cbn [db ui]. rewrite <- !app_assoc. reflexivity. }
      repeat split; auto; try tauto; try discriminate.
      intros title message [H|[H|[H|[]]]]; discriminate. }
  eexists _, _,
    [ModelAsked (ai_prompt name contact address);
     Printed ("AI Suggestion: " ++ Py.strip text);
     BoxAskYesNo "AI Suggestion" (suggestion_question c p)].
  split.
  { unfold show. cbn [db ui]. rewrite <- !app_assoc. reflexivity. }
  split.
  { intros Hne. apply String.eqb_neq in Hne. rewrite Hne. reflexivity. }
  split.
  { intros Hne. apply String.eqb_neq in Hne. rewrite Hne. reflexivity. }
  split.
  { intros [H|H]; [discriminate|congruence]. }
  split; [discriminate|].
  split.
  { intros title message [H|[H|[H|[]]]]; discriminate. }
  split.
  { destruct ((products =? "") && negb (p =? "None")) eqn:E; [right|left; reflexivity].
    apply andb_true_iff in E as [_ E]. apply negb_true_iff, String.eqb_neq in E.
    auto. }
  split.
  { destruct ((category =? "") && negb (c =? "Unknown")) eqn:E; [right|left; reflexivity].
    apply andb_true_iff in E as [_ E]. apply negb_true_iff, String.eqb_neq in E.
    auto. }
  intros _. exists (suggestion_question c p). simpl. auto.
Qed.

End AddFacts.

Section AddProperties.
Import Producers.

(** [add_producer] on a name that is not empty and not in the table: the
    INSERT goes through with what [suggest] settled on. *)
Lemma add_fresh_name (w : world) (answer : bool) (e : entries) (a : app) :
  Py.strip (entry_name e) <> "" ->
  producer_exists (Py.strip (entry_name e)) (db a) = false ->
  let settled := suggest w answer (Py.strip (entry_name e)) (Py.strip (entry_contact e))
                         (Py.strip (entry_address e)) (Py.strip (entry_products e))
                         (Py.strip (entry_category e)) a in
  let p := {| p_id := sequence (now (db a)) + 1;
              p_name := Py.strip (entry_name e);
              p_contact := Py.strip (entry_contact e);
              p_address := Py.strip (entry_address e);
              p_products := fst (fst settled);
              p_category := snd (fst settled) |} in
  add_producer w answer e a
  = {| db := commit (with_rows (db a) [p]);
       ui := (ui (snd settled) ++ added_events (producers (now (db a)) ++ [p]))%list |}.
Proof.
  intros Hname Hex settled p. subst p settled. unfold add_producer.
  apply String.eqb_neq in Hname. rewrite Hname, Hex.
  destruct (suggest_spec w answer (Py.strip (entry_name e)) (Py.strip (entry_contact e))
                         (Py.strip (entry_address e)) (Py.strip (entry_products e))
                         (Py.strip (entry_category e)) a)
    as (products' & category' & news & -> & _).
  cbn [db ui fst snd]. rewrite (insert_fresh _ _ _ _ _ _ Hex).
  unfold load_producers_data, show, added_events. cbn [db ui now producers commit with_rows].
  rewrite <- !app_assoc. reflexivity.
Qed.




(** X15. The parser of the model's suggestion never raises.  The category
    it returns holds no comma, and the category and the products come
    back trimmed; a text that lacks one of the two labels gives the
    defaults. *)
Theorem suggestion_parser_never_raises (text : string) :
  exists category products,
    parse_suggestion text = Return (category, products) /\
    Py.has_char "," category = false /\
    Py.strip category = category /\
    Py.strip products = products /\
    (Str.contains text "Category:" && Str.contains text "Products:" = false ->
     category = "Unknown" /\ products = "None").
Proof. exact (parse_suggestion_returns text). Qed.

End AddProperties.

(** ** The web searches *)

Section WebSearchProperties.
Import Producers.

Lemma google_url_one_query (query : string) : one_query (google_url query).
Proof. exists (Py.quote query). split; [reflexivity|apply quote_url]. Qed.

Lemma opens_nothing (a : app) (ev : ui_event) :
  tabs [ev] = [] -> opens_one_query a (show ev a).
Proof.
  intros H. split; [reflexivity|]. exists [ev]. rewrite H.
  split; [reflexivity|]. split; [simpl; lia|constructor].
Qed.

Lemma opens_tab (a : app) (query : string) (after : list ui_event) :
  tabs after = [] ->
  opens_one_query a {| db := db a;
                       ui := ((ui a ++ [TabOpened (google_url query)]) ++ after)%list |}.
Proof.
  intros H. split; [reflexivity|]. exists (TabOpened (google_url query) :: after).
  split; [cbn [db ui]; rewrite <- app_assoc; reflexivity|].
  cbn [tabs flat_map List.app]. fold (tabs after). rewrite H.
  split; [simpl; lia|]. constructor; [apply google_url_one_query|constructor].
Qed.

(** X16. None of the five web-search handlers touches the table; each
    opens at most one browser tab, and every address opened is
    https://www.google.com/search?q= followed by one percent-encoded
    query.  The keyword search opens its tab exactly when the entry holds
    more than blanks. *)
Theorem web_searches_open_one_query
        (selected : option selection) (entry keyword custom chosen : string) (a : app) :
  opens_one_query a (web_search_producer selected a) /\
  opens_one_query a (web_search_product_keyword entry a) /\
  opens_one_query a (search_for_suppliers keyword a) /\
  opens_one_query a (perform_search_from_dialog custom chosen a) /\
  opens_one_query a (confirm_and_search custom chosen a) /\
  (tabs (ui (web_search_product_keyword entry a)) = tabs (ui a)
   <-> Py.strip entry = "").
Proof.
  split.
  { unfold web_search_producer. destruct selected as [sel|]; [|apply opens_nothing; reflexivity].
    destruct (negb (p_products (shown sel) =? "")); [|apply opens_nothing; reflexivity].
    split; [reflexivity|]. eexists [_]. split; [reflexivity|].
    split; [simpl; lia|]. constructor; [apply google_url_one_query|constructor]. }
  split.
  { unfold web_search_product_keyword.
    destruct (Py.strip entry =? ""); [apply opens_nothing; reflexivity|].
    apply (opens_tab a _ [_]). reflexivity. }
  split.
  { unfold search_for_suppliers.
    destruct (negb (keyword =? "")); [|apply opens_nothing; reflexivity].
    split; [reflexivity|]. eexists [_]. split; [reflexivity|].
    split; [simpl; lia|]. constructor; [apply google_url_one_query|constructor]. }
  split.
  { unfold perform_search_from_dialog.
    destruct (negb (or_else (Py.strip custom) (Py.strip chosen) =? "")) eqn:E.
    - unfold search_for_suppliers. rewrite E.
      exact (opens_tab a _ [DialogClosed] eq_refl).
    - split; [reflexivity|]. exists [BoxWarning "Input Error"
                                        "Please enter or select a keyword to search.";
                                      DialogClosed].
      split; [cbn [show db ui]; rewrite <- app_assoc; reflexivity|].
      split; [simpl; lia|constructor]. }
  split.
  { unfold confirm_and_search.
    destruct (negb (or_else (Py.strip custom) (Py.strip chosen) =? ""));
      [|apply opens_nothing; reflexivity].
    split; [reflexivity|]. eexists [_; _; _].
    split; [cbn [show db ui]; rewrite <- !app_assoc; reflexivity|].
    split; [simpl; lia|]. constructor; [apply google_url_one_query|constructor]. }
  unfold web_search_product_keyword.
  destruct (Py.strip entry =? "") eqn:E.
  - apply String.eqb_eq in E. split; [auto|]. intros _.
    cbn [show ui]. unfold tabs. rewrite flat_map_app. simpl. apply app_nil_r.
  - apply String.eqb_neq in E. split; [|contradiction].
    cbn [show ui]. unfold tabs. rewrite !flat_map_app. simpl.
    rewrite app_nil_r. intros H.
    apply (f_equal (@List.length string)) in H. rewrite length_app in H.
    simpl in H. lia.
Qed.

End WebSearchProperties.

(** ** The producers table: update and delete *)

Section TableFacts.
Import Producers.

Lemma NoDup_map_inj {A B} (f : A -> B) (l : list A) (x y : A) :
  NoDup (map f l) -> In x l -> In y l -> f x = f y -> x = y.
Proof.
  induction l as [|z l IH]; simpl; intros Hnd Hx Hy E; [contradiction|].
  inversion Hnd as [|? ? Hz Hnd']; subst.
  destruct Hx as [->|Hx], Hy as [->|Hy]; auto.
  - exfalso. apply Hz. rewrite E. apply in_map. exact Hy.
  - exfalso. apply Hz. rewrite <- E. apply in_map. exact Hx.
Qed.

Lemma set_row_other (id : Z) (row : producer) (l : list producer) :
  ~ In id (map p_id l) -> set_row id row l = l.
Proof.
  intros H. unfold set_row. rewrite <- (map_id l) at 2. apply map_ext_in.
  intros p Hp. destruct (p_id p =? id)%Z eqn:E; [|reflexivity].
  apply Z.eqb_eq in E. exfalso. apply H. rewrite <- E. apply in_map. exact Hp.
Qed.

Lemma set_row_split (row s : producer) (before after : list producer) :
  NoDup (map p_id (before ++ s :: after)) ->
  set_row (p_id s) row (before ++ s :: after) = (before ++ row :: after)%list.
Proof.
  intros Hnd. rewrite map_app in Hnd. cbn [map] in Hnd.
  apply NoDup_remove in Hnd as [_ Hnot].
  unfold set_row at 1. rewrite map_app. cbn [map]. rewrite Z.eqb_refl.
  fold (set_row (p_id s) row before). fold (set_row (p_id s) row after).
  rewrite !set_row_other; [reflexivity| |];
    intros Hin; apply Hnot, in_or_app; auto.
Qed.

Lemma existsb_false {A} (f : A -> bool) (l : list A) :
  existsb f l = false <-> forall x, In x l -> f x = false.
Proof.
  split.
  - intros H x Hx. destruct (f x) eqn:E; [|reflexivity].
    rewrite <- H. symmetry. apply existsb_exists. eauto.
  - intros H. destruct (existsb f l) eqn:E; [|reflexivity].
    apply existsb_exists in E as (x & Hx & Hfx). rewrite (H x Hx) in Hfx. discriminate.
Qed.

Lemma producer_exists_names (name : string) (c : connection) :
  producer_exists name c = true <-> In name (names c).
Proof.
  unfold producer_exists, names. rewrite existsb_exists, in_map_iff.
  split; intros (p & H1 & H2).
  - apply String.eqb_eq in H2. eauto.
  - exists p. split; [exact H2|]. apply String.eqb_eq. exact H1.
Qed.

End TableFacts.

Section UpdateFacts.
Import Producers.

(** UPDATE raises only when another row has the name; otherwise it
    rewrites the one row of that id, or nothing when there is none. *)
Lemma update_rows_spec (id : Z) (name contact address products category : string)
      (c : connection) :
  NoDup (map p_id (producers (now c))) ->
  match update_rows id name contact address products category c with
  | Raise _ =>
      exists q, In q (producers (now c)) /\ p_name q = name /\ p_id q <> id
  | Return c' =>
      saved c' = saved c /\ sequence (now c') = sequence (now c) /\
      ((~ In id (map p_id (producers (now c))) /\
        producers (now c') = producers (now c)) \/
       exists before s after,
         producers (now c) = (before ++ s :: after)%list /\ p_id s = id /\
         producers (now c')
         = (before ++ {| p_id := id; p_name := name; p_contact := contact;
                         p_address := address; p_products := products;
                         p_category := category |} :: after)%list /\
         ~ In name (map p_name (before ++ after)))
  end.
Proof.
  intros Hnd. unfold update_rows.
  destruct (existsb (fun p => (p_id p =? id)%Z) (producers (now c))) eqn:Hid.
  - destruct (existsb (fun p => (p_name p =? name) && negb (p_id p =? id)%Z)
                      (producers (now c))) eqn:Hconf; cbn [andb].
    + apply existsb_exists in Hconf as (q & Hq & H).
      apply andb_true_iff in H as [H1 H2]. exists q. split; [exact Hq|].
      split; [apply String.eqb_eq; exact H1|].
      apply negb_true_iff in H2. apply Z.eqb_neq in H2. exact H2.
    + cbn [saved now sequence producers].
      split; [reflexivity|]. split; [reflexivity|]. right.
      apply existsb_exists in Hid as (s & Hs & Hsid). apply Z.eqb_eq in Hsid.
      apply in_split in Hs as (before & after & E).
      exists before, s, after. split; [exact E|]. split; [exact Hsid|].
      rewrite E in Hnd. split.
      { rewrite E, <- Hsid. apply set_row_split. exact Hnd. }
      intros Hin. apply in_map_iff in Hin as (q & Hqn & Hq).
      pose proof (proj1 (existsb_false _ _) Hconf q) as Hq'.
      rewrite E in Hq'. rewrite Hqn, String.eqb_refl in Hq'. cbn [andb] in Hq'.
      assert (Hqid : p_id q = id).
      { apply Z.eqb_eq. apply negb_false_iff. apply Hq'.
        apply in_app_or in Hq. apply in_or_app. simpl. tauto. }
      rewrite map_app in Hnd. cbn [map] in Hnd. apply NoDup_remove_2 in Hnd.
      apply Hnd. rewrite <- map_app, Hsid, <- Hqid. apply in_map. exact Hq.
  - cbn [andb saved now sequence producers].
    split; [reflexivity|]. split; [reflexivity|]. left.
    assert (Hno : ~ In id (map p_id (producers (now c)))).
    { intros Hin. apply in_map_iff in Hin as (p & Hp & Hin).
      pose proof (proj1 (existsb_false _ _) Hid p Hin) as H.
      apply Z.eqb_neq in H. contradiction. }
    split; [exact Hno|]. apply set_row_other. exact Hno.
Qed.

(** The assessment of the model shows at most one box and changes nothing
    else. *)
Lemma assess_spec (w : world) (name contact address products category : string)
      (a : app) :
  exists news,
    assess w name contact address products category a
    = {| db := db a; ui := (ui a ++ news)%list |} /\
    (forall title message, ~ In (BoxError title message) news) /\
    (gemini_model w = false -> news = []).
Proof.
  destruct a as [d u]. unfold assess. cbn [db ui].
  destruct (gemini_model w).
  2:{ exists []. rewrite app_nil_r. split; [reflexivity|]. split; [intros ? ? []|auto]. }
  destruct (send_message w (assessment_prompt name contact address products category))
    as [text|e].
  - destruct (negb (Py.strip text =? "") && negb (Py.strip text =? "No issues found.")).
    + eexists [_; _]. split; [unfold show; cbn [db ui]; rewrite <- app_assoc; reflexivity|].
      split; [|discriminate]. intros title message [H|[H|[]]]; discriminate.
    + eexists [_]. split; [reflexivity|].
      split; [|discriminate]. intros title message [H|[]]; discriminate.
  - eexists [_; _]. split; [unfold show; cbn [db ui]; rewrite <- app_assoc; reflexivity|].
    split; [|discriminate]. intros title message [H|[H|[]]]; discriminate.
Qed.

End UpdateFacts.

Section UpdateProperties.
Import Producers.

(** An update to the row's own name or to a name that no producer has
    rewrites the selected row. *)
Lemma update_free_name (w : world) (sel : selection) (e : entries) (a : app) :
  In (shown sel) (producers (now (db a))) ->
  NoDup (map p_name (producers (now (db a)))) ->
  NoDup (map p_id (producers (now (db a)))) ->
  Py.strip (entry_name e) <> "" ->
  Py.strip (entry_name e) = p_name (shown sel) \/
  producer_exists (Py.strip (entry_name e)) (db a) = false ->
  exists before after news,
    producers (now (db a)) = (before ++ shown sel :: after)%list /\
    let table := (before ++ typed_row (p_id (shown sel)) e :: after)%list in
    update_producer w (Some sel) e a
    = {| db := {| now := {| producers := table; sequence := sequence (now (db a)) |};
                  saved := {| producers := table; sequence := sequence (now (db a)) |} |};
         ui := (ui a ++ news ++ updated_events table)%list |} /\
    NoDup (map p_name table) /\
    (forall title message, ~ In (BoxError title message) news).
Proof.
  intros Hsel Hnames Hids Hname Hfree. apply String.eqb_neq in Hname.
  unfold update_producer. rewrite Hname.
  assert (Hguard : negb (Py.strip (entry_name e) =? p_name (shown sel))
                   && producer_exists (Py.strip (entry_name e)) (db a) = false).
  { destruct Hfree as [-> | ->]; [rewrite String.eqb_refl; reflexivity|apply andb_false_r]. }
  rewrite Hguard.
  destruct (assess_spec w (Py.strip (entry_name e)) (Py.strip (entry_contact e))
                        (Py.strip (entry_address e)) (Py.strip (entry_products e))
                        (Py.strip (entry_category e)) a)
    as (news & -> & Hnews & _).
  cbn [db ui].
  pose proof (update_rows_spec (p_id (shown sel)) (Py.strip (entry_name e))
                (Py.strip (entry_contact e)) (Py.strip (entry_address e))
                (Py.strip (entry_products e)) (Py.strip (entry_category e))
                (db a) Hids) as Hspec.
  destruct (update_rows (p_id (shown sel)) (Py.strip (entry_name e))
              (Py.strip (entry_contact e)) (Py.strip (entry_address e))
              (Py.strip (entry_products e)) (Py.strip (entry_category e)) (db a))
    as [c'|err].
  - destruct Hspec as (Hsaved & Hseq & [[Hno _]|(before & s & after & E & Hsid & E' & Hfresh)]).
    { exfalso. apply Hno. apply in_map. exact Hsel. }
    assert (Hs : s = shown sel).
    { apply (NoDup_map_inj p_id (producers (now (db a)))); auto.
      rewrite E. apply in_or_app. simpl. auto. }
    subst s.
    exists before, after, news. split; [exact E|]. cbv zeta.
    fold (typed_row (p_id (shown sel)) e) in E'.
    split; [|split; [|exact Hnews]].
    + unfold load_producers_data, show, updated_events, commit. cbn [db ui now].
      destruct c' as [[table' seq'] saved']. cbn [now producers sequence] in *.
      subst table' seq'. rewrite <- !app_assoc. reflexivity.
    + rewrite map_app. cbn [map typed_row p_name].
      rewrite E, map_app in Hnames. cbn [map] in Hnames.
      apply NoDup_remove_1 in Hnames.
      apply (proj2 (NoDup_Add (Add_app (Py.strip (entry_name e)) _ _))).
      split; [exact Hnames|]. rewrite <- map_app. exact Hfresh.
  - exfalso. destruct Hspec as (q & Hq & Hqn & Hqid).
    destruct Hfree as [Hsame|Hnone].
    + apply Hqid. f_equal.
      apply (NoDup_map_inj p_name (producers (now (db a)))); auto. congruence.
    + assert (Hex : producer_exists (Py.strip (entry_name e)) (db a) = true).
      { apply producer_exists_names. unfold names. rewrite <- Hqn. apply in_map. exact Hq. }
      congruence.
Qed.



End UpdateProperties.

Section DeleteProperties.
Import Producers.

Lemma ai_confirmation_spec (w : world) (producer_name : string) (producer_id : Z)
      (a : app) :
  exists proposed quiet,
    ai_confirmation w producer_name producer_id a
    = (proposed, {| db := db a; ui := (ui a ++ quiet)%list |}) /\
    forallb is_quiet quiet = true /\
    (gemini_model w = false -> proposed = "") /\
    (forall e, send_message w (confirmation_prompt producer_name producer_id) = Raise e ->
               proposed = "") /\
    (forall text, gemini_model w = true ->
                  send_message w (confirmation_prompt producer_name producer_id)
                  = Return text ->
                  proposed = Py.strip text).
Proof.
  destruct a as [d u]. unfold ai_confirmation. cbn [db ui].
  destruct (gemini_model w).
  2:{ exists "", []. rewrite app_nil_r. repeat split; auto; discriminate. }
  destruct (send_message w (confirmation_prompt producer_name producer_id)) as [text|e].
  - exists (Py.strip text), [ModelAsked (confirmation_prompt producer_name producer_id)].
    repeat split; try discriminate. intros t _ H. congruence.
  - eexists "", [_; _].
    split; [unfold show; cbn [db ui]; rewrite <- app_assoc; reflexivity|].
    repeat split; discriminate.
Qed.


End DeleteProperties.

(** ** What every operation on the table maintains *)

Section TidyFacts.
Import Producers.

Lemma NoDup_map_in {A B} (f : A -> B) (l : list A) :
  (forall x y, In x l -> In y l -> f x = f y -> x = y) ->
  NoDup l -> NoDup (map f l).
Proof.
  induction l as [|x l IH]; intros Hinj Hnd; simpl; [constructor|].
  inversion Hnd as [|? ? Hx Hnd']; subst. constructor.
  - intros Hin. apply in_map_iff in Hin as (y & E & Hy).
    apply Hx. rewrite (Hinj x y); simpl; auto.
  - apply IH; [|exact Hnd']. intros a b Ha Hb. apply Hinj; simpl; auto.
Qed.

Lemma NoDup_map_filter {A B} (f : A -> B) (keep : A -> bool) (l : list A) :
  NoDup (map f l) -> NoDup (map f (filter keep l)).
Proof.
  induction l as [|x l IH]; simpl; intros Hnd; [constructor|].
  inversion Hnd as [|? ? Hx Hnd']; subst.
  destruct (keep x); simpl; [|auto].
  constructor; [|auto]. intros Hin. apply Hx.
  apply in_map_iff in Hin as (y & E & Hy). apply filter_In in Hy as [Hy _].
  rewrite <- E. apply in_map. exact Hy.
Qed.

Lemma tidy_with_rows (c : connection) (added : list producer) :
  tidy (now c) ->
  Forall trimmed added ->
  NoDup (map p_name added) ->
  Forall (fun p => producer_exists (p_name p) c = false) added ->
  map p_id added
  = map (fun i => (sequence (now c) + Z.of_nat i)%Z) (seq 1 (List.length added)) ->
  tidy (now (with_rows c added)).
Proof.
  intros (Hnames & Hids & Hle & Htrim) Hadded Hnd Hnew Hid.
  unfold tidy, with_rows. cbn [now producers sequence].
  rewrite !map_app. split; [|split; [|split]].
  - apply NoDup_app; auto.
    intros name Hold Hin. apply in_map_iff in Hin as (p & <- & Hp).
    rewrite Forall_forall in Hnew. specialize (Hnew p Hp).
    apply (proj2 (producer_exists_names _ _)) in Hold. congruence.
  - apply NoDup_app; auto.
    + rewrite Hid. apply NoDup_map_in; [|apply seq_NoDup]. intros; lia.
    + intros id Hold Hin. rewrite Hid in Hin.
      apply in_map_iff in Hin as (i & <- & Hi). apply in_seq in Hi.
      apply in_map_iff in Hold as (p & E & Hp).
      rewrite Forall_forall in Hle. specialize (Hle p Hp). lia.
  - apply Forall_app. split.
    + eapply Forall_impl; [|exact Hle]. intros p Hp. cbv beta in *. lia.
    + apply Forall_forall. intros p Hp.
      assert (In (p_id p) (map p_id added)) as Hin by (apply in_map; exact Hp).
      rewrite Hid in Hin. apply in_map_iff in Hin as (i & E & Hi).
      apply in_seq in Hi. lia.
  - apply Forall_app. auto.
Qed.

Lemma from_row_trimmed (cols : columns) (row : list string) (p : producer) :
  from_row cols row p -> trimmed p.
Proof.
  unfold from_row, trimmed, cell. intros (-> & -> & -> & -> & ->).
  repeat split; apply strip_strip.
Qed.

Lemma tidy_commit (c : connection) : tidy (now c) -> consistent (commit c).
Proof. intros H. split; exact H. Qed.

Lemma tidy_rollback (c : connection) : tidy (saved c) -> consistent (rollback c).
Proof. intros H. split; exact H. Qed.

Lemma tidy_delete_rows (id : Z) (c : connection) :
  tidy (now c) -> tidy (now (delete_rows id c)).
Proof.
  intros (Hnames & Hids & Hle & Htrim). unfold tidy, delete_rows.
  cbn [now producers sequence].
  split; [apply NoDup_map_filter; exact Hnames|].
  split; [apply NoDup_map_filter; exact Hids|].
  split; apply Forall_forall; intros p Hp; apply filter_In in Hp as [Hp _].
  - rewrite Forall_forall in Hle. auto.
  - rewrite Forall_forall in Htrim. auto.
Qed.

Lemma tidy_update_rows (id : Z) (name contact address products category : string)
      (c c' : connection) :
  tidy (now c) ->
  update_rows id (Py.strip name) (Py.strip contact) (Py.strip address)
              (Py.strip products) (Py.strip category) c = Return c' ->
  tidy (now c') /\ saved c' = saved c.
Proof.
  intros (Hnames & Hids & Hle & Htrim) E.
  pose proof (update_rows_spec id (Py.strip name) (Py.strip contact) (Py.strip address)
                               (Py.strip products) (Py.strip category) c Hids) as H.
  rewrite E in H. destruct H as (Hsaved & Hseq & H). split; [|exact Hsaved].
  unfold tidy. rewrite Hseq.
  destruct H as [[_ ->]|(before & s & after & Et & Hsid & -> & Hfresh)]; [tauto|].
  rewrite Et in Hnames, Hids, Hle, Htrim.
  rewrite !map_app in *. cbn [map p_name p_id] in *.
  apply Forall_app in Hle as [Hle1 Hle2]. apply Forall_app in Htrim as [Ht1 Ht2].
  inversion Hle2 as [|? ? Hs Hle2']; subst. inversion Ht2 as [|? ? _ Ht2']; subst.
  split; [|split; [|split]].
  - apply NoDup_remove_1 in Hnames.
    apply (proj2 (NoDup_Add (Add_app (Py.strip name) _ _))). auto.
  - exact Hids.
  - apply Forall_app. split; [exact Hle1|]. constructor; [exact Hs|exact Hle2'].
  - apply Forall_app. split; [exact Ht1|]. constructor; [|exact Ht2'].
    repeat split; apply strip_strip.
Qed.

End TidyFacts.

Section Invariant.
Import Producers.

(** X19. A session whose table, in its current and in its last committed
    state, has distinct names, distinct ids not above the last id given,
    and only trimmed texts, is left so by every operation that writes the
    table: adding a producer (a suggestion of the model that is stored is
    trimmed too), importing a file (whether it goes through, is refused
    or is rolled back), updating and deleting, whatever the model, the
    user and the file system do. *)
Theorem session_stays_consistent
        (w : world) (answer : bool) (e : entries) (selected : option selection)
        (filepath : string) (file : reading) (a : app) :
  consistent (db a) ->
  consistent (db (add_producer w answer e a)) /\
  consistent (db (import_producers_from_file filepath file a)) /\
  consistent (db (update_producer w selected e a)) /\
  consistent (db (delete_producer w answer selected a)).
Proof.
  intros Hc. pose proof Hc as [Hnow Hsaved]. split; [|split; [|split]].
  - destruct (Py.strip (entry_name e) =? "") eqn:Hname.
    { unfold add_producer. rewrite Hname. exact Hc. }
    destruct (producer_exists (Py.strip (entry_name e)) (db a)) eqn:Hex.
    { unfold add_producer. rewrite Hname, Hex. exact Hc. }
    apply String.eqb_neq in Hname.
    rewrite (add_fresh_name w answer e a Hname Hex).
    destruct (suggest_spec w answer (Py.strip (entry_name e)) (Py.strip (entry_contact e))
                           (Py.strip (entry_address e)) (Py.strip (entry_products e))
                           (Py.strip (entry_category e)) a)
      as (products' & category' & news & -> & _ & _ & _ & _ & _ & Hp & Hcat & _).
    cbn [db fst snd]. apply tidy_commit. apply tidy_with_rows.
    + exact Hnow.
    + constructor; [|constructor]. unfold trimmed.
      cbn [p_name p_contact p_address p_products p_category].
      repeat split; try apply strip_strip.
      * destruct Hp as [->|[_ Hp]]; [apply strip_strip|exact Hp].
      * destruct Hcat as [->|(_ & Hcat & _)]; [apply strip_strip|exact Hcat].
    + repeat constructor. simpl. tauto.
    + constructor; [exact Hex|constructor].
    + reflexivity.
  - unfold import_producers_from_file.
    destruct (filepath =? ""); [exact Hc|].
    destruct (negb _); [exact Hc|].
    destruct file as [err|[|header rows] failure];
      [apply tidy_rollback; exact Hsaved|apply tidy_rollback; exact Hsaved|].
    destruct (find_columns header) as [cols|]; [|exact Hc].
    destruct (import_rows_spec cols rows (db a) no_counts)
      as (n & added & -> & _ & _ & _ & Hfrom & _ & Hnd & Hnew & Hid).
    assert (Ht : tidy (now (with_rows (db a) added))).
    { apply tidy_with_rows; auto.
      eapply Forall_impl; [|exact Hfrom].
      intros p (row & _ & _ & Hrow). exact (from_row_trimmed _ _ _ Hrow). }
    destruct failure as [err|].
    + apply tidy_rollback. exact Hsaved.
    + apply tidy_commit. exact Ht.
  - unfold update_producer. destruct selected as [sel|]; [|exact Hc].
    destruct (Py.strip (entry_name e) =? ""); [exact Hc|].
    destruct (negb _ && _); [exact Hc|].
    destruct (assess_spec w (Py.strip (entry_name e)) (Py.strip (entry_contact e))
                          (Py.strip (entry_address e)) (Py.strip (entry_products e))
                          (Py.strip (entry_category e)) a)
      as (news & -> & _).
    cbn [db ui].
    destruct (update_rows _ _ _ _ _ _ (db a)) as [c'|err] eqn:E; [|exact Hc].
    destruct (tidy_update_rows _ _ _ _ _ _ _ _ Hnow E) as [Ht _].
    apply tidy_commit. exact Ht.
  - unfold delete_producer. destruct selected as [sel|]; [|exact Hc].
    destruct (ai_confirmation_spec
                w (p_name (shown sel)) (p_id (shown sel))
                (show (Printed ("Delete function - selected_item: "
                                ++ str_of_selection (Some sel))) a))
      as (proposed & quiet & -> & _).
    destruct answer; [|exact Hc].
    apply tidy_commit. apply tidy_delete_rows. exact Hnow.
Qed.

Lemma session_stays_consistent_witness :
  consistent (db (import_producers_from_file
                    "producers.csv" (Reads (sample_header :: sample_rows) None)
                    two_producers)).
Proof.
  apply (session_stays_consistent
           (answering "") true sample_entries (Some acme_selected)
           "producers.csv" (Reads (sample_header :: sample_rows) None) two_producers).
  split; (split; [|split; [|split]]); simpl;
    repeat constructor; simpl; try lia; intuition discriminate.
Defined.

End Invariant.

(** ** Export and import *)

Section ExportFacts.
Import Producers.


Lemma exported_rows_well_formed (table : list producer) :
  Forall (fun row => well_formed export_columns row = true) (map row_cells table).
Proof. apply Forall_forall. intros row Hin. apply in_map_iff in Hin as (p & <- & _). reflexivity. Qed.



End ExportFacts.

Section ExportProperties.
Import Producers.

(** X20. The file that an export writes is accepted by the import: its
    header names the five columns, so that the name is read from the
    second cell of a row, and every data row is long enough.  When the
    names in the table are trimmed and the reader hands back the cells
    that were written, importing the file into the same session adds
    nothing: every row is counted as a duplicate and the table is left as
    it was. *)
Theorem export_is_skipped_on_import
        (target filepath : string) (written : list (list string)) (a : app) :
  supported filepath = true ->
  Forall (fun p => Py.strip (p_name p) = p_name p) (producers (now (db a))) ->
  snd (export_to_csv target None a) = Some written ->
  find_columns export_header = Some export_columns /\
  import_producers_from_file filepath (Reads written None) a
  = {| db := commit (db a);
       ui := (ui a ++ [import_summary
                         {| imported_count := 0;
                            skipped_duplicates := List.length (producers (now (db a)));
                            skipped_malformed := 0 |};
                       TreeLoaded (producers (now (db a)))])%list |}.
Proof.
  intros Hpath Htrim Hexport. split; [reflexivity|].
  destruct (supported_guards _ Hpath) as [Hne Hext].
  unfold export_to_csv in Hexport.
  destruct (target =? ""); [discriminate|]. cbn [snd] in Hexport.
  injection Hexport as <-.
  unfold import_producers_from_file. rewrite Hne, Hext.
  change (find_columns export_header) with (Some export_columns). cbv iota.
  rewrite (import_rows_all_known export_columns (map row_cells (producers (now (db a))))
                                 (db a) no_counts).
  - pose proof (exported_rows_well_formed (producers (now (db a)))) as Hwf.
    assert (Hall : filter (well_formed export_columns)
                          (map row_cells (producers (now (db a))))
                   = map row_cells (producers (now (db a)))).
    { apply forallb_filter_id. apply forallb_forall.
      rewrite Forall_forall in Hwf. exact Hwf. }
    assert (Hnone : filter (malformed export_columns)
                           (map row_cells (producers (now (db a)))) = []).
    { pose proof (filter_split_length (well_formed export_columns)
                    (map row_cells (producers (now (db a))))) as Hlen.
      rewrite Hall in Hlen. fold (malformed export_columns) in Hlen.
      apply length_zero_iff_nil. unfold malformed in *. lia. }
    rewrite Hall, Hnone, length_map.
    unfold load_producers_data, show, import_summary. cbn [db ui now commit no_counts
      imported_count skipped_duplicates skipped_malformed List.length Nat.add].
    rewrite <- app_assoc. reflexivity.
  - intros row Hin _. apply in_map_iff in Hin as (p & <- & Hp).
    unfold cell. cbn [row_cells name_idx export_columns nth].
    rewrite Forall_forall in Htrim. rewrite (Htrim p Hp).
    apply producer_exists_names. apply in_map. exact Hp.
Qed.

Lemma export_is_skipped_on_import_witness :
  import_producers_from_file "backup.csv"
    (Reads (export_header :: map row_cells [acme; helios]) None) two_producers
  = {| db := commit (db two_producers);
       ui := (ui two_producers
              ++ [import_summary {| imported_count := 0;
                                    skipped_duplicates := 2;
                                    skipped_malformed := 0 |};
                  TreeLoaded [acme; helios]])%list |}.
Proof.
  apply (proj2 (export_is_skipped_on_import
                  "backup.csv" "backup.csv"
                  (export_header :: map row_cells [acme; helios]) two_producers
                  eq_refl
                  ltac:(repeat constructor)
                  eq_refl)).
Defined.



End ExportProperties.

(** ** A suggestion in the format that the prompt asks for *)

Section SplitFacts.













End SplitFacts.

Section SuggestionFacts.
Import Producers.





End SuggestionFacts.

Section SuggestionProperties.
Import Producers.



End SuggestionProperties.

Section SelectProperties.
Import Producers.

(** X23. Selecting a row fills the entries with its texts, and an update
    pressed right after leaves the table as it was, whatever the model
    says: in a table with distinct names, distinct ids and trimmed texts
    the selected row is written back unchanged (and a row with an empty
    name is refused), so no selected producer is altered by an update
    without an edit. *)
Theorem selecting_then_updating_changes_nothing
        (w : world) (sel : selection) (e : entries) (a : app) :
  In (shown sel) (producers (now (db a))) ->
  NoDup (map p_name (producers (now (db a)))) ->
  NoDup (map p_id (producers (now (db a)))) ->
  Forall trimmed (producers (now (db a))) ->
  let filled := on_producer_tree_select (Some sel) e a in
  let out := update_producer w (Some sel) (fst filled) (snd filled) in
  producers (now (db out)) = producers (now (db a)) /\
  sequence (now (db out)) = sequence (now (db a)).
Proof.
  intros Hsel Hnames Hids Htrim filled out. subst out filled.
  cbn [on_producer_tree_select fst snd].
  set (e' := {| entry_name := p_name (shown sel);
                entry_contact := p_contact (shown sel);
                entry_address := p_address (shown sel);
                entry_products := p_products (shown sel);
                entry_category := p_category (shown sel) |}).
  set (a' := show (Printed ("Treeview selection event - selected_item: "
                            ++ str_of_selection (Some sel))) a).
  rewrite Forall_forall in Htrim.
  destruct (Htrim (shown sel) Hsel) as (T1 & T2 & T3 & T4 & T5).
  assert (Hrow : typed_row (p_id (shown sel)) e' = shown sel).
  { unfold typed_row, e'. cbn [entry_name entry_contact entry_address entry_products
                               entry_category].
    rewrite T1, T2, T3, T4, T5. destruct (shown sel); reflexivity. }
  destruct (Py.strip (entry_name e') =? "") eqn:Hname.
  - unfold update_producer. rewrite Hname. split; reflexivity.
  - apply String.eqb_neq in Hname.
    destruct (update_free_name w sel e' a' Hsel Hnames Hids Hname)
      as (before & after & news & E & Hout & _).
    { left. exact T1. }
    cbv zeta in Hout. rewrite Hout, Hrow. cbn [db now producers sequence].
    split; [symmetry; exact E|reflexivity].
Qed.

Lemma selecting_then_updating_changes_nothing_witness :
  producers (now (db (update_producer
                        (answering "Looks fine.") (Some acme_selected)
                        (fst (on_producer_tree_select (Some acme_selected)
                                                      sample_entries two_producers))
                        (snd (on_producer_tree_select (Some acme_selected)
                                                      sample_entries two_producers)))))
  = [acme; helios].
Proof.
  apply (proj1 (selecting_then_updating_changes_nothing
                  (answering "Looks fine.") acme_selected sample_entries two_producers
                  (or_introl eq_refl)
                  ltac:(repeat constructor; simpl; intuition discriminate)
                  ltac:(repeat constructor; simpl; intuition discriminate)
                  ltac:(repeat constructor))).
Defined.

End SelectProperties.
